(** * donate/payments/views.py: the payment views, embedded and verified

    The views drive a payment gateway (Braintree), keep the details of a
    completed transaction in the session and hand payloads to a task
    queue.  They are modelled as computations over an explicit world
    (session, gateway state, clock) that also emit the events an observer
    of the request sees: gateway calls, session writes, enqueued tasks and
    error logs.  Python exceptions are results of the computation. *)

From stdpp Require Import gmap strings list.
From Stdlib Require Import ZArith Lia.

Set Warnings "-register-all".
Set Default Proof Using "Type".

Open Scope Z_scope.

(** ** Dates

    [datetime.date] with the part of [calendar] and of
    [dateutil.relativedelta] that [now().date() + relativedelta(months=1)]
    runs. *)

Record date := mkdate { year : Z; month : Z; day : Z }.

Definition MINYEAR : Z := 1.
Definition MAXYEAR : Z := 9999.

(* calendar.isleap *)
Definition isleap (y : Z) : bool :=
  (y mod 4 =? 0) && (negb (y mod 100 =? 0) || (y mod 400 =? 0)).

(* calendar.mdays = [0, 31, 28, 31, 30, 31, 30, 31, 31, 30, 31, 30, 31] *)
Definition mdays : list Z := [0; 31; 28; 31; 30; 31; 30; 31; 31; 30; 31; 30; 31].

(* calendar.monthrange(year, month)[1], for a month in 1..12 *)
Definition monthrange_ndays (y m : Z) : Z :=
  nth (Z.to_nat m) mdays 0 + (if (m =? 2) && isleap y then 1 else 0).


Definition valid_dateb (d : date) : bool :=
  (MINYEAR <=? year d) && (year d <=? MAXYEAR) &&
  (1 <=? month d) && (month d <=? 12) &&
  (1 <=? day d) && (day d <=? monthrange_ndays (year d) (month d)).

(** ** Python values *)

Inductive pyval :=
  | PNone
  | PBool (b : bool)
  | PInt (z : Z)
  | PDecimal (cents : Z)     (* decimal.Decimal; the views never compute on amounts *)
  | PStr (s : string)
  | PDate (d : date)
  | PTuple (l : list pyval)
  | PList (l : list pyval)
  | PDict (d : gmap string pyval).

(* bool(v) *)
Definition truthy (v : pyval) : bool :=
  match v with
  | PNone => false
  | PBool b => b
  | PInt z => negb (z =? 0)
  | PDecimal z => negb (z =? 0)
  | PStr s => negb (String.eqb s EmptyString)
  | PDate _ => true
  | PTuple l => match l with [] => false | _ => true end
  | PList l => match l with [] => false | _ => true end
  | PDict d => negb (bool_decide (d = ∅))
  end.

(* [v == c] for a string constant [c] *)
Definition py_eq_str (v : pyval) (c : string) : bool :=
  match v with PStr s => String.eqb s c | _ => false end.

(** ** Exceptions and results *)

Inductive exn :=
  | KeyError (key : string)
  | KeyErrorVal (key : pyval)
  | IndexError
  | TypeError
  | ValueError
  | AttributeError (name : string)
  | InvalidAddress (errors : list string).

Inductive outcome (A : Type) :=
  | Ok (a : A)
  | Raise (e : exn).
Arguments Ok {A} a.
Arguments Raise {A} e.

(** ** The gateway's objects *)

Record ValidationError := { code : string; error_message : string }.

Record PaymentMethod := { token : pyval; pm_last_4 : pyval }.
Record Customer := { payment_methods : list PaymentMethod }.
Record DisbursementDetails := { settlement_amount : pyval }.
Record CreditCardDetails := { last_4 : pyval }.
Record Transaction := {
  transaction_id : pyval;
  disbursement_details : DisbursementDetails;
  credit_card_details : CreditCardDetails }.
Record Subscription := { subscription_id : pyval }.

Inductive Entity :=
  | ECustomer (c : Customer)
  | ETransaction (t : Transaction)
  | ESubscription (s : Subscription).

(* braintree.SuccessfulResult / braintree.ErrorResult *)
Inductive GatewayResult :=
  | SuccessfulResult (e : Entity)
  | ErrorResult (deep_errors : list ValidationError) (message : string).

Definition is_success (r : GatewayResult) : bool :=
  match r with SuccessfulResult _ => true | ErrorResult _ _ => false end.

Definition result_message (r : GatewayResult) : string :=
  match r with SuccessfulResult _ => EmptyString | ErrorResult _ m => m end.

(** braintree.ErrorCodes: the validation codes the views look for. *)
Module ErrorCodes.
Module Address.
Definition PostalCodeInvalidCharacters : string := "81813".
Definition PostalCodeIsTooLong : string := "81809".
End Address.
Module CreditCard.
Definition CreditCardTypeIsNotAccepted : string := "81703".
Definition CvvIsInvalid : string := "81707".
Definition CvvVerificationFailed : string := "81736".
Definition ExpirationDateIsInvalid : string := "81710".
Definition NumberIsInvalid : string := "81715".
End CreditCard.
End ErrorCodes.

(** Modelled from the spec: donate/payments/constants.py is not part of
    the sources at hand; the data model gives the frequencies
    {single, monthly} and the payment methods {card, paypal}. *)
Module constants.
Definition FREQUENCY_SINGLE : string := "single".
Definition FREQUENCY_MONTHLY : string := "monthly".
Definition METHOD_CARD : string := "card".
Definition METHOD_PAYPAL : string := "paypal".
End constants.

(** ** Events, requests, forms, responses *)

Inductive gateway_op := customer_create | transaction_sale | subscription_create.

Inductive task := send_transaction_to_basket | send_newsletter_subscription_to_basket.

Inductive event :=
  | EvGateway (op : gateway_op) (params : gmap string pyval) (success : bool)
  | EvSessionSet (key : string) (v : pyval)
  | EvEnqueue (t : task) (payload : pyval)
  | EvLogError (msg : string).

Inductive http_method := GET | HEAD | POST | PUT | OPTIONS | OtherMethod.

Inductive form_class :=
  | BraintreeCardPaymentForm
  | BraintreePaypalPaymentForm
  | BraintreePaypalUpsellForm
  | NewsletterSignupForm
  | UpsellForm.

Record Request := {
  method : http_method;
  LANGUAGE_CODE : string;
  full_path : string;
  COOKIES : gmap string string;
  POST_data : gmap string string }.

Record Form := {
  initial : gmap string pyval;
  cleaned_data : gmap string pyval;
  non_field_errors : list string }.

(* form.add_error(None, msg) *)
Definition add_error (form : Form) (msg : string) : Form :=
  {| initial := initial form;
     cleaned_data := cleaned_data form;
     non_field_errors := non_field_errors form ++ [msg] |}.

Definition unbound_form (init : gmap string pyval) : Form :=
  {| initial := init; cleaned_data := ∅; non_field_errors := [] |}.

Inductive HttpResponse :=
  | HttpResponseRedirect (url : string)
  | TemplateResponse (template_name : string) (form : option Form)
                     (context : gmap string pyval)
  | HttpResponseOptions
  | HttpResponseNotAllowed.

(** ** The environment of the views

    What the views import and this file does not embed: the gateway
    client, the settings tables, the helpers of [utils], the forms'
    validation, URL reversing and translation. *)

Class Env := {
  GwState : Type;
  gw_customer_create :
    gmap string pyval -> GwState ->
    (Customer + list ValidationError * string) * GwState;
  gw_transaction_sale :
    gmap string pyval -> GwState ->
    (Transaction + list ValidationError * string) * GwState;
  gw_subscription_create :
    gmap string pyval -> GwState ->
    (Subscription + list ValidationError * string) * GwState;
  BRAINTREE_MERCHANT_ACCOUNTS : gmap string pyval;
  BRAINTREE_PLANS : gmap string pyval;
  BRAINTREE_PARAMS : pyval;
  get_currency_info : pyval -> pyval;
  get_suggested_monthly_upgrade : pyval -> pyval -> pyval;
  freeze_transaction_details_for_session : gmap string pyval -> gmap string pyval;
  full_clean : form_class -> gmap string string -> option (gmap string pyval);
  reverse : string -> string;
  gettext : string -> string }.

Section Monad.
Context {env : Env}.

Record World := {
  session : gmap string pyval;
  gw : GwState;
  today : date }.

(** ** The monad of view code: state, emitted events, exceptions *)

Definition M (A : Type) : Type := World -> outcome A * World * list event.

Definition ret {A} (a : A) : M A := fun w => (Ok a, w, []).

Definition raise {A} (e : exn) : M A := fun w => (Raise e, w, []).

Definition bind {A B} (m : M A) (k : A -> M B) : M B :=
  fun w =>
    match m w with
    | (Ok a, w1, ev1) =>
        match k a w1 with (r, w2, ev2) => (r, w2, ev1 ++ ev2) end
    | (Raise e, w1, ev1) => (Raise e, w1, ev1)
    end.

Definition lift {A} (r : outcome A) : M A := fun w => (r, w, []).

Definition emit (e : event) : M unit := fun w => (Ok tt, w, [e]).

End Monad.

Declare Scope view_scope.
Delimit Scope view_scope with view.
Notation "x <- m ;; k" := (bind m (fun x => k))
  (at level 100, m at next level, right associativity) : view_scope.
Notation "m ;;; k" := (bind m (fun _ => k))
  (at level 100, right associativity) : view_scope.
Open Scope view_scope.

Section Views.
Context {env : Env}.

(** ** Dictionaries, lists, attributes *)

(* d.update({...}) and the dict display {...}, keys in source order *)
Definition dict_update (d : gmap string pyval) (kvs : list (string * pyval))
  : gmap string pyval :=
  foldl (fun acc kv => <[kv.1 := kv.2]> acc) d kvs.

Definition dict_literal (kvs : list (string * pyval)) : gmap string pyval :=
  dict_update ∅ kvs.

(* d[k] *)
Definition dict_getitem (d : gmap string pyval) (k : string) : M pyval :=
  match d !! k with
  | Some v => ret v
  | None => raise (KeyError k)
  end.

(* d.get(k, None) *)
Definition dict_get (d : gmap string pyval) (k : string) : pyval :=
  default PNone (d !! k).

Fixpoint hashable (v : pyval) : bool :=
  match v with
  | PDict _ | PList _ => false
  | PTuple l => forallb hashable l
  | _ => true
  end.

(* table[k] where the key is a run-time value and the table is keyed by str *)
Definition table_getitem (table : gmap string pyval) (k : pyval) : M pyval :=
  match k with
  | PStr s =>
      match table !! s with
      | Some v => ret v
      | None => raise (KeyErrorVal k)
      end
  | _ => if hashable k then raise (KeyErrorVal k) else raise TypeError
  end.

(* v[k] on a value read back from the session *)
Definition py_getitem (v : pyval) (k : string) : M pyval :=
  match v with
  | PDict d => dict_getitem d k
  | _ => raise TypeError
  end.

(* l[0] *)
Definition list_getitem0 {A} (l : list A) : M A :=
  match l with
  | x :: _ => ret x
  | [] => raise IndexError
  end.

Definition result_customer (r : GatewayResult) : M Customer :=
  match r with
  | SuccessfulResult (ECustomer c) => ret c
  | _ => raise (AttributeError "customer")
  end.

Definition result_transaction (r : GatewayResult) : M Transaction :=
  match r with
  | SuccessfulResult (ETransaction t) => ret t
  | _ => raise (AttributeError "transaction")
  end.

Definition result_subscription (r : GatewayResult) : M Subscription :=
  match r with
  | SuccessfulResult (ESubscription s) => ret s
  | _ => raise (AttributeError "subscription")
  end.

(** ** The session, the queue, the logger, the clock *)

Definition with_session (w : World) (s : gmap string pyval) : World :=
  {| session := s; gw := gw w; today := today w |}.

Definition with_gw (w : World) (g : GwState) : World :=
  {| session := session w; gw := g; today := today w |}.

(* request.session[k] *)
Definition session_getitem (k : string) : M pyval :=
  fun w =>
    match session w !! k with
    | Some v => (Ok v, w, [])
    | None => (Raise (KeyError k), w, [])
    end.

(* request.session.get(k) *)
Definition session_get (k : string) : M pyval :=
  fun w => (Ok (dict_get (session w) k), w, []).

(* request.session[k] = v *)
Definition session_setitem (k : string) (v : pyval) : M unit :=
  fun w => (Ok tt, with_session w (<[k := v]> (session w)), [EvSessionSet k v]).

(* queue.enqueue(task, payload) *)
Definition queue_enqueue (t : task) (payload : pyval) : M unit :=
  emit (EvEnqueue t payload).

(* logger.error(msg, extra=...) *)
Definition logger_error (msg : string) : M unit :=
  emit (EvLogError msg).

(* now().date() *)
Definition now_date : M date := fun w => (Ok (today w), w, []).

(** ** dateutil.relativedelta *)

(* dt.replace(year=y, month=m, day=d) *)
Definition date_replace (y m d : Z) : outcome date :=
  if valid_dateb (mkdate y m d) then Ok (mkdate y m d) else Raise ValueError.

(* dt + relativedelta(months=months), for 0 <= |months| <= 12 *)
Definition relativedelta_radd (months : Z) (dt : date) : outcome date :=
  let '(y, m) :=
    if months =? 0 then (year dt, month dt)
    else
      let m := month dt + months in
      if m >? 12 then (year dt + 1, m - 12)
      else if m <? 1 then (year dt - 1, m + 12)
      else (year dt, m) in
  let d := Z.min (monthrange_ndays y m) (day dt) in
  date_replace y m d.

(** ** The gateway client *)

Definition gateway_call {E} (op : gateway_op) (wrap : E -> Entity)
    (call : gmap string pyval -> GwState ->
            (E + list ValidationError * string) * GwState)
    (params : gmap string pyval) : M GatewayResult :=
  fun w =>
    match call params (gw w) with
    | (inl e, g) =>
        (Ok (SuccessfulResult (wrap e)), with_gw w g, [EvGateway op params true])
    | (inr (errs, msg), g) =>
        (Ok (ErrorResult errs msg), with_gw w g, [EvGateway op params false])
    end.

(* gateway.customer.create(params) *)
Definition gateway_customer_create :=
  gateway_call customer_create ECustomer gw_customer_create.

(* gateway.transaction.sale(params) *)
Definition gateway_transaction_sale :=
  gateway_call transaction_sale ETransaction gw_transaction_sale.

(* gateway.subscription.create(params) *)
Definition gateway_subscription_create :=
  gateway_call subscription_create ESubscription gw_subscription_create.

(** ** BraintreePaymentMixin *)

Definition get_custom_fields (form : Form) : gmap string pyval := ∅.

Definition get_merchant_account_id (currency : pyval) : M pyval :=
  table_getitem BRAINTREE_MERCHANT_ACCOUNTS currency.

Definition get_plan_id (currency : pyval) : M pyval :=
  table_getitem BRAINTREE_PLANS currency.

(* [success]; the view's own get_transaction_details_for_session,
   get_source_page_id and get_success_url are passed in *)
Definition success (req : Request)
    (get_transaction_details_for_session : M (gmap string pyval))
    (get_source_page_id : M pyval) (get_success_url : string)
    (send_data_to_basket : bool) : M HttpResponse :=
  details <- get_transaction_details_for_session ;;
  source_page_id <- get_source_page_id ;;
  let details := <["source_page_id" := source_page_id]> details in
  let details := <["locale" := PStr (LANGUAGE_CODE req)]> details in
  let details := freeze_transaction_details_for_session details in
  session_setitem "completed_transaction_details" (PDict details) ;;;
  session_setitem "source_page_id" source_page_id ;;;
  (if send_data_to_basket
   then queue_enqueue send_transaction_to_basket (PDict details)
   else ret tt) ;;;
  ret (HttpResponseRedirect get_success_url).

(** ** CardPaymentView *)

Record CardPaymentView := {
  payment_frequency : pyval;
  amount : pyval;
  currency : pyval;
  source_page_id : pyval }.

Definition card_get_context_data (self : CardPaymentView)
    (gateway_address_errors : pyval) : gmap string pyval :=
  dict_literal [
    ("currency_info", get_currency_info (currency self));
    ("braintree_params", BRAINTREE_PARAMS);
    ("payment_frequency", payment_frequency self);
    ("gateway_address_errors", gateway_address_errors) ].

(* form_invalid(form), with self.gateway_address_errors if it was set *)
Definition card_form_invalid (self : CardPaymentView) (form : Form)
    (gateway_address_errors : pyval) : M HttpResponse :=
  ret (TemplateResponse "payment/card.html" (Some form)
         (card_get_context_data self gateway_address_errors)).

Definition get_address_info (form_data : gmap string pyval)
  : M (gmap string pyval) :=
  street_address <- dict_getitem form_data "address_line_1" ;;
  locality <- dict_getitem form_data "town" ;;
  postal_code <- dict_getitem form_data "post_code" ;;
  country_code_alpha2 <- dict_getitem form_data "country" ;;
  let address_info := dict_literal [
    ("street_address", street_address);
    ("locality", locality);
    ("postal_code", postal_code);
    ("country_code_alpha2", country_code_alpha2) ] in
  if truthy (dict_get address_info "region")
  then region <- dict_getitem form_data "region" ;;
       ret (<["region" := region]> address_info)
  else ret address_info.

Definition client_errors : gmap string string :=
  foldl (fun acc kv => <[kv.1 := kv.2]> acc) ∅ [
    (ErrorCodes.CreditCard.CreditCardTypeIsNotAccepted,
       gettext "The type of card you used is not accepted.");
    (ErrorCodes.CreditCard.CvvIsInvalid,
       gettext "The CVV code you entered was invalid.");
    (ErrorCodes.CreditCard.CvvVerificationFailed,
       gettext "The CVV code you entered was invalid.");
    (ErrorCodes.CreditCard.ExpirationDateIsInvalid,
       gettext "The expiration date you entered was invalid.");
    (ErrorCodes.CreditCard.NumberIsInvalid,
       gettext "The credit card number you entered was invalid.") ].

Fixpoint filter_user_card_errors (deep_errors : list ValidationError)
  : list string :=
  match deep_errors with
  | [] => []
  | error :: rest =>
      match client_errors !! code error with
      | Some msg => msg :: filter_user_card_errors rest
      | None => filter_user_card_errors rest
      end
  end.

Definition address_errors : gmap string string :=
  foldl (fun acc kv => <[kv.1 := kv.2]> acc) ∅ [
    (ErrorCodes.Address.PostalCodeInvalidCharacters,
       gettext "The post code you provided is not valid.");
    (ErrorCodes.Address.PostalCodeIsTooLong,
       gettext "The post code you provided is not valid.") ].

Fixpoint check_for_address_errors (deep_errors : list ValidationError)
  : outcome unit :=
  match deep_errors with
  | [] => Ok tt
  | error :: rest =>
      match address_errors !! code error with
      | Some msg => Raise (InvalidAddress [msg])
      | None => check_for_address_errors rest
      end
  end.

Definition card_default_error_message : string :=
  gettext ("Sorry there was an error processing your payment. " +:+
           "Please try again later or use a different payment method.").

Definition add_errors (form : Form) (msgs : list string) : Form :=
  foldl add_error form msgs.

(* result.errors.deep_errors *)
Definition result_deep_errors (r : GatewayResult) : M (list ValidationError) :=
  match r with
  | ErrorResult deep_errors _ => ret deep_errors
  | SuccessfulResult _ => raise (AttributeError "errors")
  end.

Definition card_process_braintree_error_result (self : CardPaymentView)
    (result : GatewayResult) (form : Form) : M HttpResponse :=
  deep_errors <- result_deep_errors result ;;
  match deep_errors with
  | _ :: _ =>
      match check_for_address_errors deep_errors with
      | Raise (InvalidAddress errors) =>
          card_form_invalid self form (PList (PStr <$> errors))
      | Raise e => raise e
      | Ok _ =>
          let errors_to_report := filter_user_card_errors deep_errors in
          match errors_to_report with
          | _ :: _ =>
              card_form_invalid self (add_errors form errors_to_report) PNone
          | [] =>
              card_form_invalid self
                (add_error form card_default_error_message) PNone
          end
      end
  | [] =>
      card_form_invalid self (add_error form card_default_error_message) PNone
  end.

Definition card_create_customer (form : Form) : M GatewayResult :=
  first_name <- dict_getitem (cleaned_data form) "first_name" ;;
  last_name <- dict_getitem (cleaned_data form) "last_name" ;;
  email <- dict_getitem (cleaned_data form) "email" ;;
  payment_method_nonce <- dict_getitem (cleaned_data form) "braintree_nonce" ;;
  let custom_fields := get_custom_fields form in
  billing_address <- get_address_info (cleaned_data form) ;;
  result <- gateway_customer_create (dict_literal [
    ("first_name", first_name);
    ("last_name", last_name);
    ("email", email);
    ("payment_method_nonce", payment_method_nonce);
    ("custom_fields", PDict custom_fields);
    ("credit_card",
       PDict (dict_literal [("billing_address", PDict billing_address)])) ]) ;;
  (if negb (is_success result)
   then logger_error ("Failed to create Braintree customer: " +:+
                      result_message result)
   else ret tt) ;;;
  ret result.

Definition card_get_transaction_details_for_session (self : CardPaymentView)
    (form : Form) (kwargs : gmap string pyval) : M (gmap string pyval) :=
  let details := cleaned_data form in
  transaction_id <- dict_getitem kwargs "transaction_id" ;;
  let settlement_amount := dict_get kwargs "settlement_amount" in
  last_4 <- dict_getitem kwargs "last_4" ;;
  ret (dict_update details [
    ("transaction_id", transaction_id);
    ("settlement_amount", settlement_amount);
    ("last_4", last_4);
    ("payment_method", PStr constants.METHOD_CARD);
    ("currency", currency self);
    ("payment_frequency", payment_frequency self);
    ("payment_method_token", dict_get kwargs "payment_method_token") ]).

Definition card_get_success_url (self : CardPaymentView) : string :=
  if py_eq_str (payment_frequency self) constants.FREQUENCY_SINGLE
  then reverse "payments:card_upsell"
  else reverse "payments:newsletter_signup".

Definition card_success (self : CardPaymentView) (req : Request) (form : Form)
    (send_data_to_basket : bool) (kwargs : gmap string pyval) : M HttpResponse :=
  success req (card_get_transaction_details_for_session self form kwargs)
    (ret (source_page_id self)) (card_get_success_url self)
    send_data_to_basket.

Definition process_single_transaction (self : CardPaymentView) (req : Request)
    (form : Form) (send_data_to_basket : bool) : M HttpResponse :=
  result <- card_create_customer form ;;
  if is_success result then
    customer <- result_customer result ;;
    payment_method <- list_getitem0 (payment_methods customer) ;;
    amount <- dict_getitem (cleaned_data form) "amount" ;;
    merchant_account_id <- get_merchant_account_id (currency self) ;;
    result <- gateway_transaction_sale (dict_literal [
      ("amount", amount);
      ("merchant_account_id", merchant_account_id);
      ("payment_method_token", token payment_method);
      ("options", PDict (dict_literal [("submit_for_settlement", PBool true)])) ]) ;;
    if is_success result then
      transaction <- result_transaction result ;;
      card_success self req form send_data_to_basket (dict_literal [
        ("payment_method_token", token payment_method);
        ("transaction_id", transaction_id transaction);
        ("settlement_amount",
           settlement_amount (disbursement_details transaction));
        ("last_4", last_4 (credit_card_details transaction)) ])
    else
      logger_error ("Failed Braintree transaction: " +:+ result_message result) ;;;
      card_process_braintree_error_result self result form
  else
    card_process_braintree_error_result self result form.

Definition process_monthly_transaction (self : CardPaymentView) (req : Request)
    (form : Form) (send_data_to_basket : bool) : M HttpResponse :=
  result <- card_create_customer form ;;
  if is_success result then
    customer <- result_customer result ;;
    payment_method <- list_getitem0 (payment_methods customer) ;;
    plan_id <- get_plan_id (currency self) ;;
    merchant_account_id <- get_merchant_account_id (currency self) ;;
    price <- dict_getitem (cleaned_data form) "amount" ;;
    result <- gateway_subscription_create (dict_literal [
      ("plan_id", plan_id);
      ("merchant_account_id", merchant_account_id);
      ("payment_method_token", token payment_method);
      ("price", price) ]) ;;
    if is_success result then
      subscription <- result_subscription result ;;
      card_success self req form send_data_to_basket (dict_literal [
        ("transaction_id", subscription_id subscription);
        ("last_4", pm_last_4 payment_method) ])
    else
      logger_error ("Failed to create Braintree subscription: " +:+
                    result_message result) ;;;
      card_process_braintree_error_result self result form
  else
    card_process_braintree_error_result self result form.

Definition card_form_valid (self : CardPaymentView) (req : Request)
    (form : Form) (send_data_to_basket : bool) : M HttpResponse :=
  if py_eq_str (payment_frequency self) constants.FREQUENCY_SINGLE
  then process_single_transaction self req form send_data_to_basket
  else process_monthly_transaction self req form send_data_to_basket.

(** ** PaypalPaymentView *)

(* FormMixin.get_form, as get_context_data calls it when it is given no
   form: get_form_kwargs binds the new form to request.POST when the method
   of the request is POST or PUT, and leaves it unbound otherwise.  A bound
   form is kept as its validation leaves it when the page is rendered; the
   errors of an invalid form belong to its fields and are not kept here. *)
Definition FormView_get_form (req : Request) (cls : form_class)
    (init : gmap string pyval) : Form :=
  match method req with
  | POST | PUT =>
      match full_clean cls (POST_data req) with
      | Some cleaned =>
          {| initial := init; cleaned_data := cleaned;
             non_field_errors := [] |}
      | None =>
          {| initial := init; cleaned_data := ∅; non_field_errors := [] |}
      end
  | _ => unbound_form init
  end.

(* process_braintree_error_result: self.get(self.request), that is
   render_to_response(get_context_data()) on the request being processed,
   with a form of its own made by get_form *)
Definition paypal_process_braintree_error_result (req : Request)
  : M HttpResponse :=
  ret (TemplateResponse "payment/paypal.html"
         (Some (FormView_get_form req BraintreePaypalPaymentForm ∅)) ∅).

Definition paypal_get_transaction_details_for_session
    (payment_frequency currency : pyval) (result : GatewayResult) (form : Form)
  : M (gmap string pyval) :=
  ids <-
    (if py_eq_str payment_frequency constants.FREQUENCY_SINGLE then
       transaction <- result_transaction result ;;
       (* the right-hand side ends in a comma: a 1-tuple *)
       ret (transaction_id transaction,
            PTuple [settlement_amount (disbursement_details transaction)])
     else
       subscription <- result_subscription result ;;
       ret (subscription_id subscription, PNone)) ;;
  let transaction_id := ids.1 in
  let settlement_amount := ids.2 in
  amount <- dict_getitem (cleaned_data form) "amount" ;;
  ret (dict_literal [
    ("amount", amount);
    ("settlement_amount", settlement_amount);
    ("transaction_id", transaction_id);
    ("payment_method", PStr constants.METHOD_PAYPAL);
    ("currency", currency);
    ("payment_frequency", payment_frequency) ]).

Definition paypal_get_success_url (payment_frequency : pyval) : string :=
  if py_eq_str payment_frequency constants.FREQUENCY_SINGLE
  then reverse "payments:paypal_upsell"
  else reverse "payments:newsletter_signup".

Definition paypal_form_valid (req : Request) (form : Form)
    (send_data_to_basket : bool) : M HttpResponse :=
  payment_frequency <- dict_getitem (cleaned_data form) "frequency" ;;
  currency <- dict_getitem (cleaned_data form) "currency" ;;
  source_page_id <- dict_getitem (cleaned_data form) "source_page_id" ;;
  let finish (result : GatewayResult) : M HttpResponse :=
    if is_success result then
      success req
        (paypal_get_transaction_details_for_session
           payment_frequency currency result form)
        (ret source_page_id) (paypal_get_success_url payment_frequency)
        send_data_to_basket
    else
      logger_error ("Failed Braintree transaction: " +:+ result_message result) ;;;
      paypal_process_braintree_error_result req in
  if py_eq_str payment_frequency constants.FREQUENCY_SINGLE then
    amount <- dict_getitem (cleaned_data form) "amount" ;;
    merchant_account_id <- get_merchant_account_id currency ;;
    let custom_fields := get_custom_fields form in
    payment_method_nonce <- dict_getitem (cleaned_data form) "braintree_nonce" ;;
    result <- gateway_transaction_sale (dict_literal [
      ("amount", amount);
      ("merchant_account_id", merchant_account_id);
      ("custom_fields", PDict custom_fields);
      ("payment_method_nonce", payment_method_nonce);
      ("options", PDict (dict_literal [("submit_for_settlement", PBool true)])) ]) ;;
    finish result
  else
    payment_method_nonce <- dict_getitem (cleaned_data form) "braintree_nonce" ;;
    let custom_fields := get_custom_fields form in
    result <- gateway_customer_create (dict_literal [
      ("payment_method_nonce", payment_method_nonce);
      ("custom_fields", PDict custom_fields) ]) ;;
    if is_success result then
      customer <- result_customer result ;;
      payment_method <- list_getitem0 (payment_methods customer) ;;
      plan_id <- get_plan_id currency ;;
      merchant_account_id <- get_merchant_account_id currency ;;
      price <- dict_getitem (cleaned_data form) "amount" ;;
      result <- gateway_subscription_create (dict_literal [
        ("plan_id", plan_id);
        ("merchant_account_id", merchant_account_id);
        ("payment_method_token", token payment_method);
        ("price", price) ]) ;;
      finish result
    else
      logger_error ("Failed to create Braintree customer: " +:+
                    result_message result) ;;;
      paypal_process_braintree_error_result req.

(** ** Django's generic views, as far as the views below inherit them *)

(* View.dispatch for a view with get and post handlers (FormView) *)
Definition FormView_dispatch (req : Request) (get post : M HttpResponse)
  : M HttpResponse :=
  match method req with
  | GET | HEAD => get
  | POST | PUT => post
  | OPTIONS => ret HttpResponseOptions
  | OtherMethod => ret HttpResponseNotAllowed
  end.

(* View.dispatch for a view with a get handler only (TemplateView) *)
Definition TemplateView_dispatch (req : Request) (get : M HttpResponse)
  : M HttpResponse :=
  match method req with
  | GET | HEAD => get
  | OPTIONS => ret HttpResponseOptions
  | POST | PUT | OtherMethod => ret HttpResponseNotAllowed
  end.

(* ProcessFormView.post: bind the form of class [cls] to the request and
   validate it.  The errors of an invalid form belong to its fields and are
   not kept here. *)
Definition FormView_post (req : Request) (cls : form_class)
    (init : gmap string pyval)
    (form_valid form_invalid : Form -> M HttpResponse) : M HttpResponse :=
  match full_clean cls (POST_data req) with
  | Some cleaned =>
      form_valid {| initial := init; cleaned_data := cleaned;
                    non_field_errors := [] |}
  | None =>
      form_invalid {| initial := init; cleaned_data := ∅;
                      non_field_errors := [] |}
  end.

(** ** TransactionRequiredMixin *)

Definition TransactionRequiredMixin_dispatch (next : M HttpResponse)
  : M HttpResponse :=
  details <- session_get "completed_transaction_details" ;;
  if negb (truthy details)
  then ret (HttpResponseRedirect "/")
  else next.

(** ** CardUpsellView and PaypalUpsellView *)

Definition upsell_default_error_message : string :=
  gettext ("Sorry there was an error processing your payment. " +:+
           "Please try again later.").

Definition upsell_success_url : string := reverse "payments:newsletter_signup".

Definition upsell_form_invalid (template_name : string)
    (context : gmap string pyval) (form : Form) : M HttpResponse :=
  ret (TemplateResponse template_name (Some form) context).

(* process_braintree_error_result of both upsell views *)
Definition upsell_process_braintree_error_result (template_name : string)
    (context : gmap string pyval) (form : Form) : M HttpResponse :=
  upsell_form_invalid template_name context
    (add_error form upsell_default_error_message).

Definition card_upsell_get_transaction_details_for_session
    (result : GatewayResult) (form : Form) (kwargs : gmap string pyval)
  : M (gmap string pyval) :=
  let details := cleaned_data form in
  subscription <- result_subscription result ;;
  currency <- dict_getitem kwargs "currency" ;;
  ret (dict_update details [
    ("transaction_id", subscription_id subscription);
    ("payment_method", PStr constants.METHOD_CARD);
    ("currency", currency);
    ("payment_frequency", PStr constants.FREQUENCY_MONTHLY) ]).

Definition card_upsell_form_valid (req : Request) (form : Form)
    (send_data_to_basket : bool) : M HttpResponse :=
  last_transaction <- session_getitem "completed_transaction_details" ;;
  payment_method_token <- py_getitem last_transaction "payment_method_token" ;;
  last_transaction <- session_getitem "completed_transaction_details" ;;
  currency <- py_getitem last_transaction "currency" ;;
  today <- now_date ;;
  start_date <- lift (relativedelta_radd 1 today) ;;
  plan_id <- get_plan_id currency ;;
  merchant_account_id <- get_merchant_account_id currency ;;
  price <- dict_getitem (cleaned_data form) "amount" ;;
  result <- gateway_subscription_create (dict_literal [
    ("plan_id", plan_id);
    ("merchant_account_id", merchant_account_id);
    ("payment_method_token", payment_method_token);
    ("first_billing_date", PDate start_date);
    ("price", price) ]) ;;
  if is_success result then
    success req
      (card_upsell_get_transaction_details_for_session result form
         (dict_literal [("currency", currency)]))
      (session_get "source_page_id") upsell_success_url send_data_to_basket
  else
    logger_error ("Failed to create Braintree subscription: " +:+
                  result_message result) ;;;
    upsell_process_braintree_error_result "payment/card_upsell.html" ∅ form.

Definition card_upsell_post (req : Request) (suggested_upgrade : pyval)
  : M HttpResponse :=
  FormView_post req UpsellForm (dict_literal [("amount", suggested_upgrade)])
    (fun form => card_upsell_form_valid req form true)
    (upsell_form_invalid "payment/card_upsell.html" ∅).

Definition card_upsell_get (suggested_upgrade : pyval) : M HttpResponse :=
  ret (TemplateResponse "payment/card_upsell.html"
         (Some (unbound_form (dict_literal [("amount", suggested_upgrade)]))) ∅).

(* the guard both upsell dispatch methods open with; [expected_method] is
   METHOD_CARD in CardUpsellView and METHOD_PAYPAL in PaypalUpsellView *)
Definition upsell_dispatch (expected_method : string)
    (handlers : pyval -> M HttpResponse) : M HttpResponse :=
  last_transaction <- session_getitem "completed_transaction_details" ;;
  payment_frequency <- py_getitem last_transaction "payment_frequency" ;;
  eligible <-
    (if py_eq_str payment_frequency constants.FREQUENCY_SINGLE then
       payment_method <- py_getitem last_transaction "payment_method" ;;
       ret (py_eq_str payment_method expected_method)
     else ret false) ;;
  if negb eligible then ret (HttpResponseRedirect upsell_success_url)
  else
    currency <- py_getitem last_transaction "currency" ;;
    amount <- py_getitem last_transaction "amount" ;;
    let suggested_upgrade := get_suggested_monthly_upgrade currency amount in
    match suggested_upgrade with
    | PNone => ret (HttpResponseRedirect upsell_success_url)
    | _ => TransactionRequiredMixin_dispatch (handlers suggested_upgrade)
    end.

Definition CardUpsellView_dispatch (req : Request) : M HttpResponse :=
  upsell_dispatch constants.METHOD_CARD
    (fun suggested_upgrade =>
       FormView_dispatch req (card_upsell_get suggested_upgrade)
         (card_upsell_post req suggested_upgrade)).

Definition paypal_upsell_context : gmap string pyval :=
  dict_literal [("braintree_params", BRAINTREE_PARAMS)].

Definition paypal_upsell_get_transaction_details_for_session
    (currency : pyval) (result : GatewayResult) (form : Form)
  : M (gmap string pyval) :=
  let details := cleaned_data form in
  subscription <- result_subscription result ;;
  ret (dict_update details [
    ("transaction_id", subscription_id subscription);
    ("payment_method", PStr constants.METHOD_PAYPAL);
    ("currency", currency);
    ("payment_frequency", PStr constants.FREQUENCY_MONTHLY) ]).

Definition paypal_upsell_form_valid (req : Request) (form : Form)
    (send_data_to_basket : bool) : M HttpResponse :=
  currency <- dict_getitem (cleaned_data form) "currency" ;;
  payment_method_nonce <- dict_getitem (cleaned_data form) "braintree_nonce" ;;
  let custom_fields := get_custom_fields form in
  result <- gateway_customer_create (dict_literal [
    ("payment_method_nonce", payment_method_nonce);
    ("custom_fields", PDict custom_fields) ]) ;;
  if is_success result then
    customer <- result_customer result ;;
    payment_method <- list_getitem0 (payment_methods customer) ;;
    today <- now_date ;;
    start_date <- lift (relativedelta_radd 1 today) ;;
    plan_id <- get_plan_id currency ;;
    merchant_account_id <- get_merchant_account_id currency ;;
    price <- dict_getitem (cleaned_data form) "amount" ;;
    result <- gateway_subscription_create (dict_literal [
      ("plan_id", plan_id);
      ("merchant_account_id", merchant_account_id);
      ("payment_method_token", token payment_method);
      ("first_billing_date", PDate start_date);
      ("price", price) ]) ;;
    if is_success result then
      success req
        (paypal_upsell_get_transaction_details_for_session currency result form)
        (session_get "source_page_id") upsell_success_url send_data_to_basket
    else
      logger_error ("Failed Braintree transaction: " +:+ result_message result) ;;;
      upsell_process_braintree_error_result "payment/paypal_upsell.html"
        paypal_upsell_context form
  else
    logger_error ("Failed to create Braintree customer: " +:+
                  result_message result) ;;;
    upsell_process_braintree_error_result "payment/paypal_upsell.html"
      paypal_upsell_context form.

(* get_initial reads the currency back from the session *)
Definition paypal_upsell_get_initial (suggested_upgrade : pyval)
  : M (gmap string pyval) :=
  last_transaction <- session_getitem "completed_transaction_details" ;;
  currency <- py_getitem last_transaction "currency" ;;
  ret (dict_literal [("currency", currency); ("amount", suggested_upgrade)]).

Definition paypal_upsell_post (req : Request) (suggested_upgrade : pyval)
  : M HttpResponse :=
  init <- paypal_upsell_get_initial suggested_upgrade ;;
  FormView_post req BraintreePaypalUpsellForm init
    (fun form => paypal_upsell_form_valid req form true)
    (upsell_form_invalid "payment/paypal_upsell.html" paypal_upsell_context).

Definition paypal_upsell_get (suggested_upgrade : pyval) : M HttpResponse :=
  init <- paypal_upsell_get_initial suggested_upgrade ;;
  ret (TemplateResponse "payment/paypal_upsell.html"
         (Some (unbound_form init)) paypal_upsell_context).

Definition PaypalUpsellView_dispatch (req : Request) : M HttpResponse :=
  upsell_dispatch constants.METHOD_PAYPAL
    (fun suggested_upgrade =>
       FormView_dispatch req (paypal_upsell_get suggested_upgrade)
         (paypal_upsell_post req suggested_upgrade)).

(** ** NewsletterSignupView *)

Definition newsletter_form_valid (req : Request) (form : Form)
    (send_data_to_basket : bool) : M HttpResponse :=
  (if send_data_to_basket then
     let data := cleaned_data form in
     let data := <["source_url" := PStr (full_path req)]> data in
     let data := <["lang" := PStr (LANGUAGE_CODE req)]> data in
     queue_enqueue send_newsletter_subscription_to_basket
       (PDict (cleaned_data form))
   else ret tt) ;;;
  ret (HttpResponseRedirect (reverse "payments:completed")).

Definition newsletter_get (req : Request) : M HttpResponse :=
  if bool_decide (COOKIES req !! "subscribed" = Some "1")
  then ret (HttpResponseRedirect (reverse "payments:completed"))
  else ret (TemplateResponse "payment/newsletter_signup.html"
              (Some (unbound_form ∅)) ∅).

Definition newsletter_post (req : Request) : M HttpResponse :=
  FormView_post req NewsletterSignupForm ∅
    (fun form => newsletter_form_valid req form true)
    (fun form => ret (TemplateResponse "payment/newsletter_signup.html"
                        (Some form) ∅)).

Definition NewsletterSignupView_dispatch (req : Request) : M HttpResponse :=
  TransactionRequiredMixin_dispatch
    (FormView_dispatch req (newsletter_get req) (newsletter_post req)).

(** ** ThankYouView *)

Definition thank_you_get : M HttpResponse :=
  details <- session_getitem "completed_transaction_details" ;;
  ret (TemplateResponse "payment/thank_you.html" None
         (dict_literal [("completed_transaction_details", details)])).

Definition ThankYouView_dispatch (req : Request) : M HttpResponse :=
  TransactionRequiredMixin_dispatch (TemplateView_dispatch req thank_you_get).

End Views.

Arguments dict_literal : simpl never.
Arguments dict_update : simpl never.
Arguments FormView_get_form : simpl never.

(** ** Observing a run *)

Section Observations.
Context {env : Env}.

(* the value a dict display or update leaves under a key: the last pair
   with that key, or what was there before *)
Definition assoc_lookup (kvs : list (string * pyval)) (k : string)
    (init : option pyval) : option pyval :=
  foldl (fun acc kv => if String.eqb kv.1 k then Some kv.2 else acc) init kvs.

Definition outcome_of {A} (x : outcome A * World * list event) : outcome A := x.1.1.
Definition world_of {A} (x : outcome A * World * list event) : World := x.1.2.
Definition events_of {A} (x : outcome A * World * list event) : list event := x.2.

(* completed_transaction_details[k], as the session holds it *)
Definition stored_detail (w : World) (k : string) : option pyval :=
  match session w !! "completed_transaction_details" with
  | Some (PDict details) => details !! k
  | _ => None
  end.

(* the calls that end a payment: the charge and the subscription; creating
   the customer only prepares them *)
Definition is_terminal (op : gateway_op) : bool :=
  match op with
  | customer_create => false
  | transaction_sale | subscription_create => true
  end.

Definition terminal_call_succeeded (evs : list event) : bool :=
  existsb (fun e => match e with
                    | EvGateway op _ ok => is_terminal op && ok
                    | _ => false
                    end) evs.

Definition gateway_failed (evs : list event) : bool :=
  existsb (fun e => match e with
                    | EvGateway _ _ ok => negb ok
                    | _ => false
                    end) evs.

Definition gateway_called (evs : list event) : bool :=
  existsb (fun e => match e with EvGateway _ _ _ => true | _ => false end) evs.

Definition slot_written (k : string) (evs : list event) : bool :=
  existsb (fun e => match e with
                    | EvSessionSet k' _ => String.eqb k k'
                    | _ => false
                    end) evs.

Definition session_written (evs : list event) : bool :=
  existsb (fun e => match e with EvSessionSet _ _ => true | _ => false end) evs.

Definition task_enqueued (t : task) (evs : list event) : bool :=
  existsb (fun e => match e with
                    | EvEnqueue t' _ =>
                        match t, t' with
                        | send_transaction_to_basket, send_transaction_to_basket
                        | send_newsletter_subscription_to_basket,
                          send_newsletter_subscription_to_basket => true
                        | _, _ => false
                        end
                    | _ => false
                    end) evs.

(** The six payment attempts: the form_valid of the four payment views,
    the card view covering both frequencies through its attribute and the
    PayPal view through its form. *)
Inductive PaymentAttempt :=
  | CardAttempt (self : CardPaymentView)
  | PaypalAttempt
  | CardUpsellAttempt
  | PaypalUpsellAttempt.

Definition form_valid (a : PaymentAttempt) (req : Request) (form : Form)
    (send_data_to_basket : bool) : M HttpResponse :=
  match a with
  | CardAttempt self => card_form_valid self req form send_data_to_basket
  | PaypalAttempt => paypal_form_valid req form send_data_to_basket
  | CardUpsellAttempt => card_upsell_form_valid req form send_data_to_basket
  | PaypalUpsellAttempt => paypal_upsell_form_valid req form send_data_to_basket
  end.

(* the ledger is kept in the run [x] from the world [w]: the record is
   written exactly on a successful terminal call, and nothing changes
   otherwise *)
Definition ledger_kept (w : World)
    (x : outcome HttpResponse * World * list event) : Prop :=
  let evs := events_of x in
  slot_written "completed_transaction_details" evs = terminal_call_succeeded evs
  /\ (terminal_call_succeeded evs = true ->
      exists details,
        session (world_of x) !! "completed_transaction_details"
        = Some (PDict details))
  /\ (terminal_call_succeeded evs = false ->
      session (world_of x) = session w /\
      session_written evs = false /\
      task_enqueued send_transaction_to_basket evs = false)
  /\ (gateway_failed evs = true -> terminal_call_succeeded evs = false).

End Observations.

(** ** The properties of the specification, in its own words *)

Section Specification.
Context {env : Env}.

(* the address-related and the card-related validation codes *)
Definition address_codes : list string :=
  [ ErrorCodes.Address.PostalCodeInvalidCharacters;
    ErrorCodes.Address.PostalCodeIsTooLong ].

Definition card_codes : list string :=
  [ ErrorCodes.CreditCard.CreditCardTypeIsNotAccepted;
    ErrorCodes.CreditCard.CvvIsInvalid;
    ErrorCodes.CreditCard.CvvVerificationFailed;
    ErrorCodes.CreditCard.ExpirationDateIsInvalid;
    ErrorCodes.CreditCard.NumberIsInvalid ].

Definition address_message : string :=
  gettext "The post code you provided is not valid.".

(* the fixed user message of each card-related code *)
Definition card_message (c : string) : option string :=
  if String.eqb c ErrorCodes.CreditCard.CreditCardTypeIsNotAccepted
  then Some (gettext "The type of card you used is not accepted.")
  else if String.eqb c ErrorCodes.CreditCard.CvvIsInvalid
  then Some (gettext "The CVV code you entered was invalid.")
  else if String.eqb c ErrorCodes.CreditCard.CvvVerificationFailed
  then Some (gettext "The CVV code you entered was invalid.")
  else if String.eqb c ErrorCodes.CreditCard.ExpirationDateIsInvalid
  then Some (gettext "The expiration date you entered was invalid.")
  else if String.eqb c ErrorCodes.CreditCard.NumberIsInvalid
  then Some (gettext "The credit card number you entered was invalid.")
  else None.

Definition generic_message : string :=
  gettext ("Sorry there was an error processing your payment. " +:+
           "Please try again later or use a different payment method.").

(* the page a card payment that failed is answered with: the form with its
   messages, and the address messages if the address was at fault *)
Definition card_error_page (self : CardPaymentView) (form : Form)
    (gateway_address_errors : pyval) : HttpResponse :=
  TemplateResponse "payment/card.html" (Some form)
    (card_get_context_data self gateway_address_errors).




(* the two upsell views and the payment method each expects *)
Inductive UpsellView := CardUpsell | PaypalUpsell.

Definition expected_method (v : UpsellView) : string :=
  match v with
  | CardUpsell => constants.METHOD_CARD
  | PaypalUpsell => constants.METHOD_PAYPAL
  end.

Definition upsell_view_dispatch (v : UpsellView) (req : Request)
  : M HttpResponse :=
  match v with
  | CardUpsell => CardUpsellView_dispatch req
  | PaypalUpsell => PaypalUpsellView_dispatch req
  end.

Definition upsell_view_form_valid (v : UpsellView) (req : Request)
    (form : Form) (send_data_to_basket : bool) : M HttpResponse :=
  match v with
  | CardUpsell => card_upsell_form_valid req form send_data_to_basket
  | PaypalUpsell => paypal_upsell_form_valid req form send_data_to_basket
  end.

(* the views behind the transaction guard *)
Inductive GuardedView :=
  | GuardedCardUpsell | GuardedPaypalUpsell | GuardedNewsletter | GuardedThankYou.

Definition guarded_dispatch (v : GuardedView) (req : Request) : M HttpResponse :=
  match v with
  | GuardedCardUpsell => CardUpsellView_dispatch req
  | GuardedPaypalUpsell => PaypalUpsellView_dispatch req
  | GuardedNewsletter => NewsletterSignupView_dispatch req
  | GuardedThankYou => ThankYouView_dispatch req
  end.

Definition op_called (op : gateway_op) (evs : list event) : bool :=
  existsb (fun e => match e with
                    | EvGateway op' _ _ =>
                        match op, op' with
                        | customer_create, customer_create
                        | transaction_sale, transaction_sale
                        | subscription_create, subscription_create => true
                        | _, _ => false
                        end
                    | _ => false
                    end) evs.

(* the parameters of the subscriptions a run asked the gateway for *)
Definition subscriptions_requested (evs : list event)
  : list (gmap string pyval) :=
  omap (fun e => match e with
                 | EvGateway subscription_create params _ => Some params
                 | _ => None
                 end) evs.








(* the payloads handed to the queue for a task *)
Definition payloads_enqueued (t : task) (evs : list event) : list pyval :=
  omap (fun e => match e with
                 | EvEnqueue t' payload =>
                     if task_enqueued t [e] then Some payload else None
                 | _ => None
                 end) evs.

End Specification.

(** ** A scripted gateway, to run the views on concrete requests *)

Module Scenario.

Definition reply : Type := Entity + list ValidationError * string.

Definition next_reply {E} (proj : Entity -> option E) (script : list reply)
  : (E + list ValidationError * string) * list reply :=
  match script with
  | inl e :: rest =>
      match proj e with
      | Some x => (inl x, rest)
      | None => (inr ([], "unexpected reply"), rest)
      end
  | inr err :: rest => (inr err, rest)
  | [] => (inr ([], "gateway unavailable"), [])
  end.

Definition scripted : Env := {|
  GwState := list reply;
  gw_customer_create := fun _ =>
    next_reply (fun e => match e with ECustomer c => Some c | _ => None end);
  gw_transaction_sale := fun _ =>
    next_reply (fun e => match e with ETransaction t => Some t | _ => None end);
  gw_subscription_create := fun _ =>
    next_reply (fun e => match e with ESubscription s => Some s | _ => None end);
  BRAINTREE_MERCHANT_ACCOUNTS := {[ "usd" := PStr "usd-ac" ]};
  BRAINTREE_PLANS := {[ "usd" := PStr "usd-plan" ]};
  BRAINTREE_PARAMS := PDict ∅;
  get_currency_info := fun c => c;
  get_suggested_monthly_upgrade := fun _ _ => PDecimal 500;
  freeze_transaction_details_for_session := fun d => d;
  full_clean := fun _ data => Some (PStr <$> data);
  reverse := fun name => name;
  gettext := fun s => s |}.

Definition a_request (m : http_method) : Request := {|
  method := m;
  LANGUAGE_CODE := "en-US";
  full_path := "/newsletter-signup/";
  COOKIES := ∅;
  POST_data := ∅ |}.

Definition world (s : gmap string pyval) (script : list reply) (d : date)
  : @World scripted :=
  @Build_World scripted s script d.

Definition card_form : Form := {|
  initial := ∅;
  cleaned_data := dict_literal [
    ("first_name", PStr "Ada"); ("last_name", PStr "Lovelace");
    ("email", PStr "ada@example.org"); ("braintree_nonce", PStr "nonce-1");
    ("address_line_1", PStr "1 Analytical Way"); ("town", PStr "London");
    ("post_code", PStr "N1"); ("country", PStr "GB");
    ("amount", PDecimal 5000) ];
  non_field_errors := [] |}.

Definition card_single : CardPaymentView := {|
  payment_frequency := PStr "single";
  amount := PDecimal 5000;
  currency := PStr "usd";
  source_page_id := PInt 3 |}.

Definition paypal_form (frequency : string) : Form := {|
  initial := ∅;
  cleaned_data := dict_literal [
    ("frequency", PStr frequency); ("currency", PStr "usd");
    ("source_page_id", PInt 3); ("braintree_nonce", PStr "nonce-2");
    ("amount", PDecimal 5000) ];
  non_field_errors := [] |}.

Definition upsell_form : Form := {|
  initial := ∅;
  cleaned_data := dict_literal [
    ("amount", PDecimal 500); ("currency", PStr "usd");
    ("braintree_nonce", PStr "nonce-3") ];
  non_field_errors := [] |}.

Definition newsletter_form : Form := {|
  initial := ∅;
  cleaned_data := dict_literal [
    ("email", PStr "ada@example.org"); ("privacy", PBool true) ];
  non_field_errors := [] |}.

Definition a_customer : Customer :=
  {| payment_methods := [ {| token := PStr "tok-9"; pm_last_4 := PStr "1111" |} ] |}.

Definition a_transaction : Transaction := {|
  transaction_id := PStr "tx-1";
  disbursement_details := {| settlement_amount := PDecimal 4850 |};
  credit_card_details := {| last_4 := PStr "1111" |} |}.

Definition a_subscription : Subscription :=
  {| subscription_id := PStr "sub-1" |}.

Definition errors (codes : list string) : list ValidationError :=
  (fun c => {| code := c; error_message := EmptyString |}) <$> codes.

Definition declined (codes : list string) : reply :=
  inr (errors codes, "declined").

(* the record a single payment by [method] leaves in the session *)
Definition details_after_single (method : string) (with_token : bool)
  : gmap string pyval :=
  dict_literal
    ([ ("amount", PDecimal 5000); ("currency", PStr "usd");
       ("payment_frequency", PStr "single");
       ("payment_method", PStr method) ]
     ++ if with_token then [("payment_method_token", PStr "tok-1")] else []).

Definition session_after_single (method : string) (with_token : bool)
  : gmap string pyval :=
  dict_literal [
    ("completed_transaction_details",
       PDict (details_after_single method with_token));
    ("source_page_id", PInt 3) ].

Definition jan_31 : date := mkdate 2020 1 31.

End Scenario.

(** ** Further views: the dispatch of the two payment views *)

(* a view that may answer "not found" before it does anything else *)
Inductive or_404 (A : Type) :=
  | Http404
  | Found (a : A).
Arguments Http404 {A}.
Arguments Found {A} a.

(* the request methods a form view answers by processing the form *)
Definition is_submission (m : http_method) : bool :=
  match m with
  | POST | PUT => true
  | _ => false
  end.

Section PaymentDispatch.
Context {env : Env}.

(* constants.FREQUENCIES and the validation of StartCardPaymentForm belong
   to modules that are not embedded here *)
Variable FREQUENCIES : list string.
Variable StartCardPaymentForm_clean :
  gmap string string -> option (gmap string pyval).

(* FormView.get of the card view: the form with get_initial() *)
Definition card_get (self : CardPaymentView) : M HttpResponse :=
  ret (TemplateResponse "payment/card.html"
         (Some (unbound_form (dict_literal [("amount", amount self)])))
         (card_get_context_data self PNone)).

Definition card_post (self : CardPaymentView) (req : Request) : M HttpResponse :=
  FormView_post req BraintreeCardPaymentForm
    (dict_literal [("amount", amount self)])
    (fun form => card_form_valid self req form true)
    (fun form => card_form_invalid self form PNone).

(* CardPaymentView.dispatch; [frequency] is kwargs['frequency'] and
   [GET_data] is request.GET *)
Definition CardPaymentView_dispatch (frequency : string)
    (GET_data : gmap string string) (req : Request)
  : or_404 (M HttpResponse) :=
  if negb (bool_decide (frequency ∈ FREQUENCIES)) then Http404
  else Found
    match StartCardPaymentForm_clean GET_data with
    | None => ret (HttpResponseRedirect "/")
    | Some cleaned =>
        amount <- dict_getitem cleaned "amount" ;;
        currency <- dict_getitem cleaned "currency" ;;
        source_page_id <- dict_getitem cleaned "source_page_id" ;;
        let self := {| payment_frequency := PStr frequency;
                       amount := amount;
                       currency := currency;
                       source_page_id := source_page_id |} in
        FormView_dispatch req (card_get self) (card_post self req)
    end.

(* PaypalPaymentView inherits dispatch, get and post from FormView *)
Definition paypal_get : M HttpResponse :=
  ret (TemplateResponse "payment/paypal.html" (Some (unbound_form ∅)) ∅).

Definition paypal_post (req : Request) : M HttpResponse :=
  FormView_post req BraintreePaypalPaymentForm ∅
    (fun form => paypal_form_valid req form true)
    (fun form => ret (TemplateResponse "payment/paypal.html" (Some form) ∅)).

Definition PaypalPaymentView_dispatch (req : Request) : M HttpResponse :=
  FormView_dispatch req paypal_get (paypal_post req).

(* the six views of the module, the card view with the arguments of its
   URL and its query string *)
Inductive AnyView :=
  | CardPayment (frequency : string) (GET_data : gmap string string)
  | PaypalPayment
  | Guarded (v : GuardedView).

(* the form a view processes on submission *)
Definition view_form_class (v : AnyView) : option form_class :=
  match v with
  | CardPayment _ _ => Some BraintreeCardPaymentForm
  | PaypalPayment => Some BraintreePaypalPaymentForm
  | Guarded GuardedCardUpsell => Some UpsellForm
  | Guarded GuardedPaypalUpsell => Some BraintreePaypalUpsellForm
  | Guarded GuardedNewsletter => Some NewsletterSignupForm
  | Guarded GuardedThankYou => None
  end.

Definition any_dispatch (v : AnyView) (req : Request)
  : or_404 (M HttpResponse) :=
  match v with
  | CardPayment frequency GET_data =>
      CardPaymentView_dispatch frequency GET_data req
  | PaypalPayment => Found (PaypalPaymentView_dispatch req)
  | Guarded v => Found (guarded_dispatch v req)
  end.

(* the record of the session makes the upsell of [expected] eligible: a
   single payment by that method for which an upgrade is suggested *)
Definition eligible_for_upsell (expected : string) (w : World) : Prop :=
  exists details currency amount,
    session w !! "completed_transaction_details" = Some (PDict details) /\
    details !! "payment_frequency" = Some (PStr constants.FREQUENCY_SINGLE) /\
    details !! "payment_method" = Some (PStr expected) /\
    details !! "currency" = Some currency /\
    details !! "amount" = Some amount /\
    get_suggested_monthly_upgrade currency amount <> PNone.

(* the request [req] to the view [v] in the world [w] is a submission that
   passed every check of the view, and is processed as the payment attempt
   [a] on the form [form] *)
Definition submitted (v : AnyView) (req : Request) (w : World)
    (a : PaymentAttempt) (form : Form) : Prop :=
  is_submission (method req) = true /\
  non_field_errors form = [] /\
  (exists cls, view_form_class v = Some cls /\
               full_clean cls (POST_data req) = Some (cleaned_data form)) /\
  match v, a with
  | CardPayment frequency GET_data, CardAttempt self =>
      frequency ∈ FREQUENCIES /\
      payment_frequency self = PStr frequency /\
      exists cleaned,
        StartCardPaymentForm_clean GET_data = Some cleaned /\
        cleaned !! "amount" = Some (amount self) /\
        cleaned !! "currency" = Some (currency self) /\
        cleaned !! "source_page_id" = Some (source_page_id self)
  | PaypalPayment, PaypalAttempt => True
  | Guarded GuardedCardUpsell, CardUpsellAttempt =>
      eligible_for_upsell constants.METHOD_CARD w
  | Guarded GuardedPaypalUpsell, PaypalUpsellAttempt =>
      eligible_for_upsell constants.METHOD_PAYPAL w
  | _, _ => False
  end.

(* what a request to a view comes to: nothing at all; or the form_valid of
   a payment view on a submission that passed every check; or, in the
   newsletter view, the signup handed to the queue *)
Definition dispatch_outcome (v : AnyView) (req : Request) (w : World)
    (x : outcome HttpResponse * World * list event) : Prop :=
  (exists o, x = (o, w, [])) \/
  (exists a form,
     submitted v req w a form /\
     x = form_valid a req form true w) \/
  (v = Guarded GuardedNewsletter /\
   is_submission (method req) = true /\
   truthy (dict_get (session w) "completed_transaction_details") = true /\
   exists cleaned,
     full_clean NewsletterSignupForm (POST_data req) = Some cleaned /\
     x = (Ok (HttpResponseRedirect (reverse "payments:completed")), w,
          [EvEnqueue send_newsletter_subscription_to_basket (PDict cleaned)])).

End PaymentDispatch.

(** ** Further observations of a run *)

Section Further.
Context {env : Env}.

(* the gateway calls of a run, in order, each with its success *)
Definition gateway_calls (evs : list event) : list (gateway_op * bool) :=
  omap (fun e => match e with
                 | EvGateway op _ ok => Some (op, ok)
                 | _ => None
                 end) evs.

Definition error_logs (evs : list event) : list string :=
  omap (fun e => match e with EvLogError msg => Some msg | _ => None end) evs.

Definition session_writes (evs : list event) : list (string * pyval) :=
  omap (fun e => match e with
                 | EvSessionSet k v => Some (k, v)
                 | _ => None
                 end) evs.

(* the sequences of gateway calls a payment may make: nothing; a customer
   alone; a customer that was created and then one charge or subscription;
   one charge or subscription alone *)
Definition well_sequenced (calls : list (gateway_op * bool)) : bool :=
  match calls with
  | [] => true
  | [(customer_create, _)] => true
  | [(customer_create, true); (op, _)] => is_terminal op
  | [(op, _)] => is_terminal op
  | _ => false
  end.

(* the parameters of the calls of one kind a run made *)
Definition requested (op : gateway_op) (evs : list event)
  : list (gmap string pyval) :=
  omap (fun e => match e with
                 | EvGateway _ params _ =>
                     if op_called op [e] then Some params else None
                 | _ => None
                 end) evs.

Definition is_redirect (o : outcome HttpResponse) : bool :=
  match o with
  | Ok (HttpResponseRedirect _) => true
  | _ => false
  end.

(* the frequency a payment attempt runs with *)
Definition attempt_is_single (a : PaymentAttempt) (form : Form) : bool :=
  match a with
  | CardAttempt self =>
      py_eq_str (payment_frequency self) constants.FREQUENCY_SINGLE
  | PaypalAttempt =>
      py_eq_str (dict_get (cleaned_data form) "frequency")
        constants.FREQUENCY_SINGLE
  | CardUpsellAttempt | PaypalUpsellAttempt => false
  end.

(* the route a successful attempt hands over to: the upsell of its method
   after a single payment, the newsletter signup otherwise *)
Definition next_route (a : PaymentAttempt) (form : Form) : string :=
  match a with
  | CardAttempt _ =>
      if attempt_is_single a form then "payments:card_upsell"
      else "payments:newsletter_signup"
  | PaypalAttempt =>
      if attempt_is_single a form then "payments:paypal_upsell"
      else "payments:newsletter_signup"
  | CardUpsellAttempt | PaypalUpsellAttempt => "payments:newsletter_signup"
  end.

(* the messages a failed card payment can show *)
Definition card_user_messages : list string :=
  [ gettext "The type of card you used is not accepted.";
    gettext "The CVV code you entered was invalid.";
    gettext "The expiration date you entered was invalid.";
    gettext "The credit card number you entered was invalid.";
    generic_message ].

(* the keys get_transaction_details_for_session and success set in the
   record of a card payment, over the fields of the form *)
Definition card_record_keys : list string :=
  [ "transaction_id"; "settlement_amount"; "last_4"; "payment_method";
    "currency"; "payment_frequency"; "payment_method_token";
    "source_page_id"; "locale" ].


(* the keys the upsell views set in their record, over the fields of the
   form *)
Definition upsell_record_keys : list string :=
  [ "transaction_id"; "payment_method"; "currency"; "payment_frequency";
    "source_page_id"; "locale" ].

Definition upsell_template (v : UpsellView) : string :=
  match v with
  | CardUpsell => "payment/card_upsell.html"
  | PaypalUpsell => "payment/paypal_upsell.html"
  end.

Definition upsell_context (v : UpsellView) : gmap string pyval :=
  match v with
  | CardUpsell => ∅
  | PaypalUpsell => paypal_upsell_context
  end.

(* the payment method an attempt pays with *)
Definition attempt_method (a : PaymentAttempt) : string :=
  match a with
  | CardAttempt _ | CardUpsellAttempt => constants.METHOD_CARD
  | PaypalAttempt | PaypalUpsellAttempt => constants.METHOD_PAYPAL
  end.

(* the initial data of the form an upsell view offers *)
Definition upsell_initial (v : UpsellView) (currency suggested : pyval)
  : gmap string pyval :=
  match v with
  | CardUpsell => dict_literal [("amount", suggested)]
  | PaypalUpsell => dict_literal [("currency", currency); ("amount", suggested)]
  end.

End Further.

(** ** Further requests and runs on the scripted gateway *)

Module Cases.

Definition FREQUENCIES : list string := ["single"; "monthly"].

(* the start form of a donation of 50.00 usd from page 3 *)
Definition start_form (data : gmap string string)
  : option (gmap string pyval) :=
  Some (dict_literal [
    ("amount", PDecimal 5000); ("currency", PStr "usd");
    ("source_page_id", PInt 3) ]).

Definition paypal_submission : Request := {|
  method := POST;
  LANGUAGE_CODE := "en-US";
  full_path := "/paypal/";
  COOKIES := ∅;
  POST_data := foldl (fun acc kv => <[kv.1 := kv.2]> acc) ∅ [
    ("frequency", "single"); ("currency", "usd"); ("source_page_id", "3");
    ("braintree_nonce", "nonce-2"); ("amount", "50.00") ] |}.

Definition empty_world : @World Scenario.scripted :=
  Scenario.world ∅ [] Scenario.jan_31.

(* a card payment of single frequency: paid, and declined at the charge *)
Definition card_paid
  : outcome HttpResponse * @World Scenario.scripted * list event :=
  form_valid (CardAttempt Scenario.card_single) (Scenario.a_request POST)
    Scenario.card_form true
    (Scenario.world ∅
       [inl (ECustomer Scenario.a_customer);
        inl (ETransaction Scenario.a_transaction);
        inl (ESubscription Scenario.a_subscription)] Scenario.jan_31).

Definition card_declined
  : outcome HttpResponse * @World Scenario.scripted * list event :=
  form_valid (CardAttempt Scenario.card_single) (Scenario.a_request POST)
    Scenario.card_form true
    (Scenario.world ∅
       [inl (ECustomer Scenario.a_customer);
        Scenario.declined [ErrorCodes.CreditCard.CvvIsInvalid]]
       Scenario.jan_31).


Definition paypal_declined
  : outcome HttpResponse * @World Scenario.scripted * list event :=
  form_valid PaypalAttempt paypal_submission
    (Scenario.paypal_form "single") true
    (Scenario.world ∅
       [Scenario.declined [ErrorCodes.Address.PostalCodeIsTooLong]]
       Scenario.jan_31).

Definition card_upsell_paid
  : outcome HttpResponse * @World Scenario.scripted * list event :=
  upsell_view_form_valid CardUpsell (Scenario.a_request POST)
    Scenario.upsell_form true
    (Scenario.world (Scenario.session_after_single "card" true)
       [inl (ESubscription Scenario.a_subscription)] Scenario.jan_31).

Definition card_upsell_declined
  : outcome HttpResponse * @World Scenario.scripted * list event :=
  upsell_view_form_valid CardUpsell (Scenario.a_request POST)
    Scenario.upsell_form true
    (Scenario.world (Scenario.session_after_single "card" true)
       [Scenario.declined [ErrorCodes.Address.PostalCodeIsTooLong]]
       Scenario.jan_31).

(* the parameters of the charge of [card_paid] *)
Definition charged : gmap string pyval :=
  dict_literal [
    ("amount", PDecimal 5000);
    ("merchant_account_id", PStr "usd-ac");
    ("payment_method_token", PStr "tok-9");
    ("options", PDict (dict_literal [("submit_for_settlement", PBool true)])) ].

(* the parameters of the subscription of a card upsell after [card_paid] *)
Definition subscribed : gmap string pyval :=
  dict_literal [
    ("plan_id", PStr "usd-plan");
    ("merchant_account_id", PStr "usd-ac");
    ("payment_method_token", PStr "tok-9");
    ("first_billing_date", PDate (mkdate 2020 2 29));
    ("price", PDecimal 500) ].

(* a form of the card view that has a region *)
Definition address_data : gmap string pyval :=
  dict_literal [
    ("address_line_1", PStr "1 Analytical Way"); ("town", PStr "London");
    ("post_code", PStr "N1"); ("country", PStr "GB");
    ("region", PStr "Greater London") ].

Definition address_info : gmap string pyval :=
  dict_literal [
    ("street_address", PStr "1 Analytical Way"); ("locality", PStr "London");
    ("postal_code", PStr "N1"); ("country_code_alpha2", PStr "GB") ].

End Cases.

(** * Theorems *)

(** ** The error classifier of the card view *)

Section Classifier.
Context {env : Env}.

Lemma client_errors_lookup (c : string) : client_errors !! c = card_message c.
Proof.
  unfold client_errors, card_message; simpl.
  repeat match goal with
  | |- context [String.eqb c ?k] =>
      destruct (String.eqb_spec c k) as [->|];
      [ reflexivity | rewrite lookup_insert_ne by congruence ]
  end.
  apply lookup_empty.
Qed.

Lemma address_errors_lookup (c : string) :
  address_errors !! c =
  if bool_decide (c ∈ address_codes) then Some address_message else None.
Proof.
  unfold address_errors, address_codes; simpl.
  case_bool_decide as Hc.
  - apply list_elem_of_In in Hc; simpl in Hc.
    destruct Hc as [<-|[<-|[]]]; reflexivity.
  - rewrite !lookup_insert_ne, lookup_empty; [reflexivity| |];
      intros <-; apply Hc; set_solver.
Qed.

Lemma check_for_address_errors_found (errs : list ValidationError) :
  (exists e, e ∈ errs /\ code e ∈ address_codes) ->
  check_for_address_errors errs = Raise (InvalidAddress [address_message]).
Proof.
  induction errs as [|e errs IH]; intros (e0 & Hin & Hcode).
  - inversion Hin.
  - simpl. rewrite address_errors_lookup. case_bool_decide as He.
    + reflexivity.
    + apply IH. exists e0. split; [|exact Hcode].
      apply elem_of_cons in Hin as [->|Hin]; [contradiction|exact Hin].
Qed.

Lemma check_for_address_errors_clean (errs : list ValidationError) :
  (forall e, e ∈ errs -> code e ∉ address_codes) ->
  check_for_address_errors errs = Ok tt.
Proof.
  induction errs as [|e errs IH]; intros Hclean; [reflexivity|].
  simpl. rewrite address_errors_lookup.
  rewrite bool_decide_eq_false_2 by (apply Hclean; left).
  apply IH. intros e' He'. apply Hclean. right. exact He'.
Qed.

Lemma filter_user_card_errors_omap (errs : list ValidationError) :
  filter_user_card_errors errs = omap (fun e => card_message (code e)) errs.
Proof.
  induction errs as [|e errs IH]; [reflexivity|].
  simpl. rewrite client_errors_lookup, IH.
  destruct (card_message (code e)); reflexivity.
Qed.

Lemma card_message_unmapped (c : string) :
  c ∉ card_codes -> card_message c = None.
Proof.
  intros Hc. unfold card_message.
  repeat match goal with
  | |- context [String.eqb c ?k] =>
      destruct (String.eqb_spec c k) as [->|];
      [ exfalso; apply Hc; unfold card_codes; set_solver | ]
  end.
  reflexivity.
Qed.

Lemma filter_user_card_errors_unmapped (errs : list ValidationError) :
  (forall e, e ∈ errs -> code e ∉ card_codes) ->
  filter_user_card_errors errs = [].
Proof.
  induction errs as [|e errs IH]; intros Hun; [reflexivity|].
  simpl. rewrite client_errors_lookup, card_message_unmapped by (apply Hun; left).
  apply IH. intros e' He'. apply Hun. right. exact He'.
Qed.

Lemma add_errors_fields (form : Form) (msgs : list string) :
  initial (add_errors form msgs) = initial form /\
  cleaned_data (add_errors form msgs) = cleaned_data form /\
  non_field_errors (add_errors form msgs) = non_field_errors form ++ msgs.
Proof.
  revert form. induction msgs as [|m msgs IH]; intros form; simpl.
  - rewrite app_nil_r. auto.
  - destruct (IH (add_error form m)) as (-> & -> & ->). simpl.
    rewrite <- app_assoc. auto.
Qed.

(** C2. When the error list of a gateway result holds an address-related
    code (postal code with invalid characters, postal code too long), the
    card view answers with the address message as its address errors and
    with the form as it was: no card message and no generic message is
    added, whatever other codes the list holds. *)
Theorem address_errors_take_precedence
    (self : CardPaymentView) (errs : list ValidationError) (message : string)
    (form : Form) (w : World) :
  (exists e, e ∈ errs /\ code e ∈ address_codes) ->
  card_process_braintree_error_result self (ErrorResult errs message) form w
  = (Ok (card_error_page self form (PList [PStr address_message])), w, []).
Proof.
  intros Haddr.
  unfold card_process_braintree_error_result, result_deep_errors, bind, ret.
  destruct errs as [|e errs].
  - destruct Haddr as (e & He & _). inversion He.
  - rewrite (check_for_address_errors_found (e :: errs) Haddr).
    reflexivity.
Qed.

(** C7. A gateway result whose errors hold neither an address-related nor
    a mapped card-related code, and equally a result with no structured
    errors at all, is answered with the form carrying one more message,
    the generic one, and with no address errors. *)
Theorem unmapped_errors_yield_generic_message
    (self : CardPaymentView) (errs : list ValidationError) (message : string)
    (form : Form) (w : World) :
  (forall e, e ∈ errs -> (code e ∉ address_codes) /\ (code e ∉ card_codes)) ->
  card_process_braintree_error_result self (ErrorResult errs message) form w
  = (Ok (card_error_page self (add_error form generic_message) PNone), w, [])
  /\ non_field_errors (add_error form generic_message)
     = non_field_errors form ++ [generic_message].
Proof.
  intros Hun. split; [|reflexivity].
  unfold card_process_braintree_error_result, result_deep_errors, bind, ret.
  destruct errs as [|e errs]; [reflexivity|].
  rewrite check_for_address_errors_clean by (intros e' He'; apply Hun, He').
  rewrite filter_user_card_errors_unmapped by (intros e' He'; apply Hun, He').
  reflexivity.
Qed.

(** C8. In a gateway result without address-related codes, each of the
    five card-related codes has its fixed message, the messages of all the
    codes present are added to the form in the order of the error list
    (the generic message standing in when there is none), and the
    card-number-invalid code is reported as "The credit card number you
    entered was invalid.", alone when it is the only error. *)
Theorem card_errors_reported_in_order
    (self : CardPaymentView) (errs : list ValidationError) (message : string)
    (form : Form) (w : World) :
  (forall e, e ∈ errs -> code e ∉ address_codes) ->
  let reported := omap (fun e => card_message (code e)) errs in
  let number_invalid := gettext "The credit card number you entered was invalid." in
  (client_errors !! ErrorCodes.CreditCard.CreditCardTypeIsNotAccepted
     = Some (gettext "The type of card you used is not accepted.") /\
   client_errors !! ErrorCodes.CreditCard.CvvIsInvalid
     = Some (gettext "The CVV code you entered was invalid.") /\
   client_errors !! ErrorCodes.CreditCard.CvvVerificationFailed
     = Some (gettext "The CVV code you entered was invalid.") /\
   client_errors !! ErrorCodes.CreditCard.ExpirationDateIsInvalid
     = Some (gettext "The expiration date you entered was invalid.") /\
   client_errors !! ErrorCodes.CreditCard.NumberIsInvalid = Some number_invalid) /\
  filter_user_card_errors errs = reported /\
  (exists form',
     card_process_braintree_error_result self (ErrorResult errs message) form w
     = (Ok (card_error_page self form' PNone), w, []) /\
     initial form' = initial form /\
     cleaned_data form' = cleaned_data form /\
     non_field_errors form'
     = non_field_errors form ++
       (match reported with [] => [generic_message] | _ => reported end) /\
     (forall e, errs = [e] ->
        code e = ErrorCodes.CreditCard.NumberIsInvalid ->
        non_field_errors form' = non_field_errors form ++ [number_invalid])) /\
  (forall e, e ∈ errs -> code e = ErrorCodes.CreditCard.NumberIsInvalid ->
     number_invalid ∈ reported).
Proof.
  intros Hclean reported number_invalid.
  split; [repeat split; reflexivity|].
  split; [apply filter_user_card_errors_omap|].
  split.
  - unfold card_process_braintree_error_result, result_deep_errors, bind, ret.
    destruct errs as [|e errs].
    + exists (add_error form card_default_error_message).
      repeat split; try reflexivity. intros e He; discriminate He.
    + rewrite check_for_address_errors_clean by exact Hclean.
      rewrite filter_user_card_errors_omap. fold reported.
      destruct reported as [|m ms] eqn:Hrep.
      * exists (add_error form card_default_error_message).
        repeat split; try reflexivity.
        intros e' [= -> ->] Hcode. subst reported. simpl in Hrep.
        rewrite Hcode in Hrep. discriminate Hrep.
      * exists (add_errors form (m :: ms)).
        destruct (add_errors_fields form (m :: ms)) as (Hi & Hc & Hn).
        repeat split; try assumption; try reflexivity.
        intros e' [= -> ->] Hcode. rewrite Hn. f_equal.
        subst reported. simpl in Hrep. rewrite Hcode in Hrep.
        symmetry. exact Hrep.
  - intros e He Hcode. subst reported.
    apply list_elem_of_omap. exists e. split; [exact He|].
    rewrite Hcode. reflexivity.
Qed.

End Classifier.


(** ** The session ledger *)

Arguments relativedelta_radd : simpl never.
Arguments ledger_kept : simpl never.

Section Ledger.
Context {env : Env}.

(* the classifier of the card view touches neither the world nor the
   outside *)
Lemma card_process_braintree_error_result_pure
    (self : CardPaymentView) (result : GatewayResult) (form : Form) (w : World) :
  exists o, card_process_braintree_error_result self result form w = (o, w, []).
Proof.
  unfold card_process_braintree_error_result, result_deep_errors,
    card_form_invalid, bind, ret, raise.
  destruct result as [e|errs msg]; [eauto|].
  destruct errs as [|e errs]; [eauto|].
  cbv beta iota.
  destruct (check_for_address_errors _) as [[]|[]]; eauto.
  destruct (filter_user_card_errors _); eauto.
Qed.

Lemma lookup_dict_update (d : gmap string pyval) kvs (k : string) :
  dict_update d kvs !! k = assoc_lookup kvs k (d !! k).
Proof.
  unfold dict_update, assoc_lookup. revert d.
  induction kvs as [|[k' v] kvs IH]; intros d; simpl; [reflexivity|].
  rewrite IH. f_equal.
  destruct (String.eqb_spec k' k) as [->|Hne].
  - apply lookup_insert_eq.
  - apply lookup_insert_ne. exact Hne.
Qed.

Lemma lookup_dict_literal kvs (k : string) :
  dict_literal kvs !! k = assoc_lookup kvs k None.
Proof. unfold dict_literal. rewrite lookup_dict_update, lookup_empty. reflexivity. Qed.

(* creating the customer either raises before the gateway is reached, or
   calls the gateway once, logging an error when the call fails *)
Lemma card_create_customer_cases (form : Form) (w : World) :
  (exists e, card_create_customer form w = (Raise e, w, [])) \/
  (exists params c g,
     gw_customer_create params (gw w) = (inl c, g) /\
     card_create_customer form w
     = (Ok (SuccessfulResult (ECustomer c)), with_gw w g,
        [EvGateway customer_create params true])) \/
  (exists params errs msg g,
     gw_customer_create params (gw w) = (inr (errs, msg), g) /\
     card_create_customer form w
     = (Ok (ErrorResult errs msg), with_gw w g,
        [EvGateway customer_create params false;
         EvLogError ("Failed to create Braintree customer: " +:+ msg)])).
Proof.
  unfold card_create_customer, get_address_info, gateway_customer_create,
    gateway_call, dict_getitem, dict_get, logger_error, emit, bind, ret, raise.
  repeat first
    [ rewrite lookup_dict_literal; simpl
    | match goal with
      | |- context [match cleaned_data form !! ?k with _ => _ end] =>
          destruct (cleaned_data form !! k); simpl; [|left; eauto]
      end ].
  match goal with
  | |- context [gw_customer_create ?p ?g] =>
      destruct (gw_customer_create p g) as [[c|[errs msg]] g'] eqn:Hgw
  end; simpl; right; [left|right]; eauto 10.
  all: match goal with |- ?G => idtac G end.
Qed.

Ltac unfold_views :=
  unfold form_valid, upsell_view_form_valid, card_form_valid,
    process_single_transaction,
    process_monthly_transaction,
    paypal_form_valid, card_upsell_form_valid, paypal_upsell_form_valid,
    card_success, success, card_get_transaction_details_for_session,
    paypal_get_transaction_details_for_session,
    card_upsell_get_transaction_details_for_session,
    paypal_upsell_get_transaction_details_for_session,
    paypal_process_braintree_error_result,
    upsell_process_braintree_error_result, upsell_form_invalid,
    get_merchant_account_id, get_plan_id, table_getitem,
    gateway_customer_create, gateway_transaction_sale,
    gateway_subscription_create, gateway_call,
    result_customer, result_transaction, result_subscription,
    list_getitem0, py_getitem, dict_getitem, session_getitem, session_get,
    session_setitem, queue_enqueue, logger_error, now_date, lift, emit,
    bind, ret, raise in *.

(* run a view symbolically: decide the innermost test first, so that every
   step of the run is taken in the order of the source *)
Ltac run_step :=
  match goal with
  | |- context [card_process_braintree_error_result ?s ?r ?f ?w] =>
      let o := fresh "o" in
      destruct (card_process_braintree_error_result_pure s r f w) as [o ->];
      simpl
  | |- context [card_create_customer ?f ?w] =>
      destruct (card_create_customer_cases f w)
        as [(? & ->)|[(? & ? & ? & ? & ->)|(? & ? & ? & ? & ? & ->)]];
      simpl
  | |- context [dict_literal ?kvs !! ?k] =>
      rewrite (lookup_dict_literal kvs k); simpl
  | |- context [match ?x with _ => _ end] =>
      lazymatch x with
      | context [match _ with _ => _ end] => fail
      | _ => destruct x eqn:?; simpl
      end
  end.

Ltac run_views := unfold_views; simpl; repeat run_step.

(** C1. In every payment attempt (the card view with either frequency,
    the PayPal view with either frequency, the card upsell, the PayPal
    upsell) the session slot completed_transaction_details is written
    exactly when the terminal gateway call, the charge or the subscription,
    returned a success, and it then holds a record; in every other run,
    among them every run in which a gateway call failed, the session is as
    it was, nothing is written to it and no transaction is handed to the
    queue. *)
Theorem session_written_iff_terminal_success
    (a : PaymentAttempt) (req : Request) (form : Form)
    (send_data_to_basket : bool) (w : World) :
  let x := form_valid a req form send_data_to_basket w in
  let evs := events_of x in
  slot_written "completed_transaction_details" evs = terminal_call_succeeded evs
  /\ (terminal_call_succeeded evs = true ->
      exists details,
        session (world_of x) !! "completed_transaction_details"
        = Some (PDict details))
  /\ (terminal_call_succeeded evs = false ->
      session (world_of x) = session w /\
      session_written evs = false /\
      task_enqueued send_transaction_to_basket evs = false)
  /\ (gateway_failed evs = true -> terminal_call_succeeded evs = false).
Proof.
  change (ledger_kept w (form_valid a req form send_data_to_basket w)).
  destruct a; run_views; unfold ledger_kept, events_of, world_of; simpl;
    (split; [reflexivity|]);
    (split; [intros Hs; try discriminate Hs; eexists;
             rewrite lookup_insert_ne by discriminate; apply lookup_insert_eq|]);
    (split; [intros Hs; try discriminate Hs; auto|]);
    intros Hf; try discriminate Hf; reflexivity.
Qed.

Lemma py_eq_str_true (v : pyval) (c : string) :
  py_eq_str v c = true -> v = PStr c.
Proof.
  destruct v; simpl; try discriminate.
  intros H. apply String.eqb_eq in H. congruence.
Qed.

Lemma py_eq_str_false (v : pyval) (c : string) :
  v <> PStr c -> py_eq_str v c = false.
Proof.
  intros Hne. destruct (py_eq_str v c) eqn:H; [|reflexivity].
  apply py_eq_str_true in H. contradiction.
Qed.

(** C4. When the record in the session has a payment_frequency other than
    single, or a payment_method other than the one the upsell view expects
    (card for the card upsell, PayPal for the PayPal upsell), the view
    answers with a redirect to its success URL, leaves the world as it was
    and calls the gateway not at all. *)
Theorem ineligible_upsell_redirects
    (v : UpsellView) (req : Request) (details : gmap string pyval)
    (frequency : pyval) (w : World) :
  session w !! "completed_transaction_details" = Some (PDict details) ->
  details !! "payment_frequency" = Some frequency ->
  (frequency <> PStr constants.FREQUENCY_SINGLE \/
   exists m, details !! "payment_method" = Some m /\
             m <> PStr (expected_method v)) ->
  upsell_view_dispatch v req w
  = (Ok (HttpResponseRedirect upsell_success_url), w, [])
  /\ gateway_called (events_of (upsell_view_dispatch v req w)) = false.
Proof.
  intros Hsession Hfrequency Hineligible.
  assert (upsell_view_dispatch v req w
          = (Ok (HttpResponseRedirect upsell_success_url), w, [])) as Hrun.
  { assert (forall handlers,
              upsell_dispatch (expected_method v) handlers w
              = (Ok (HttpResponseRedirect upsell_success_url), w, [])) as Hguard.
    { intros handlers.
      unfold upsell_dispatch, session_getitem, py_getitem, dict_getitem,
        bind, ret.
      rewrite Hsession. simpl. rewrite Hfrequency. simpl.
      destruct (py_eq_str frequency constants.FREQUENCY_SINGLE) eqn:Hsingle;
        [|reflexivity].
      destruct Hineligible as [Hne|(m & Hm & Hne)].
      - apply py_eq_str_true in Hsingle. contradiction.
      - rewrite Hm. simpl. rewrite (py_eq_str_false _ _ Hne). reflexivity. }
    destruct v; apply Hguard. }
  rewrite Hrun. split; reflexivity.
Qed.
















(* what the two payment views put under settlement_amount before the
   record is frozen: the PayPal view a 1-tuple, the card view the amount *)
Lemma paypal_single_details_hold_a_tuple
    (currency : pyval) (t : Transaction) (form : Form) (amount : pyval)
    (w : World) :
  cleaned_data form !! "amount" = Some amount ->
  exists details,
    paypal_get_transaction_details_for_session
      (PStr constants.FREQUENCY_SINGLE) currency
      (SuccessfulResult (ETransaction t)) form w
    = (Ok details, w, []) /\
    details !! "settlement_amount"
    = Some (PTuple [settlement_amount (disbursement_details t)]).
Proof.
  intros Hamount.
  unfold paypal_get_transaction_details_for_session, result_transaction,
    dict_getitem, bind, ret.
  simpl. rewrite Hamount. eexists. split; [reflexivity|].
  rewrite lookup_dict_literal. reflexivity.
Qed.

Lemma card_single_details_hold_the_amount
    (self : CardPaymentView) (form : Form) (payment_method : PaymentMethod)
    (t : Transaction) (w : World) :
  exists details,
    card_get_transaction_details_for_session self form
      (dict_literal [
         ("payment_method_token", token payment_method);
         ("transaction_id", transaction_id t);
         ("settlement_amount", settlement_amount (disbursement_details t));
         ("last_4", last_4 (credit_card_details t)) ]) w
    = (Ok details, w, []) /\
    details !! "settlement_amount"
    = Some (settlement_amount (disbursement_details t)).
Proof.
  unfold card_get_transaction_details_for_session, dict_getitem, dict_get,
    bind, ret.
  rewrite !lookup_dict_literal. simpl. eexists. split; [reflexivity|].
  rewrite lookup_dict_update. reflexivity.
Qed.

End Ledger.

(** ** The guard of the views that need a transaction *)

Section Guard.
Context {env : Env}.

Lemma guard_redirects_without_transaction (next : M HttpResponse) (w : World) :
  session w !! "completed_transaction_details" = None ->
  TransactionRequiredMixin_dispatch next w
  = (Ok (HttpResponseRedirect "/"), w, []).
Proof.
  intros Hnone.
  unfold TransactionRequiredMixin_dispatch, session_get, dict_get, bind, ret.
  rewrite Hnone. reflexivity.
Qed.

(* the upsell views read the record before the guard of the mixin runs *)
Lemma upsell_dispatch_without_transaction
    (expected : string) (handlers : pyval -> M HttpResponse) (w : World) :
  session w !! "completed_transaction_details" = None ->
  upsell_dispatch expected handlers w
  = (Raise (KeyError "completed_transaction_details"), w, []).
Proof.
  intros Hnone. unfold upsell_dispatch, session_getitem, bind.
  rewrite Hnone. reflexivity.
Qed.

Lemma newsletter_enqueues_cleaned_data (req : Request) (form : Form) (w : World) :
  newsletter_form_valid req form true w
  = (Ok (HttpResponseRedirect (reverse "payments:completed")), w,
     [EvEnqueue send_newsletter_subscription_to_basket
        (PDict (cleaned_data form))]).
Proof. reflexivity. Qed.

End Guard.

(** ** The views on concrete requests *)

(** C3. With an empty session the newsletter and the thank-you views
    redirect to "/", as the guard of TransactionRequiredMixin has it, but
    the card and the PayPal upsell views raise KeyError: their dispatch
    subscripts the session before the guard is reached. *)
Theorem upsell_without_transaction_raises :
  session (Scenario.world ∅ [] Scenario.jan_31)
    !! "completed_transaction_details" = None /\
  guarded_dispatch (env:=Scenario.scripted) GuardedNewsletter
    (Scenario.a_request GET) (Scenario.world ∅ [] Scenario.jan_31)
  = (Ok (HttpResponseRedirect "/"), Scenario.world ∅ [] Scenario.jan_31, []) /\
  guarded_dispatch (env:=Scenario.scripted) GuardedThankYou
    (Scenario.a_request GET) (Scenario.world ∅ [] Scenario.jan_31)
  = (Ok (HttpResponseRedirect "/"), Scenario.world ∅ [] Scenario.jan_31, []) /\
  guarded_dispatch (env:=Scenario.scripted) GuardedCardUpsell
    (Scenario.a_request GET) (Scenario.world ∅ [] Scenario.jan_31)
  = (Raise (KeyError "completed_transaction_details"),
     Scenario.world ∅ [] Scenario.jan_31, []) /\
  guarded_dispatch (env:=Scenario.scripted) GuardedPaypalUpsell
    (Scenario.a_request GET) (Scenario.world ∅ [] Scenario.jan_31)
  = (Raise (KeyError "completed_transaction_details"),
     Scenario.world ∅ [] Scenario.jan_31, []).
Proof.
  split; [reflexivity|].
  split; [apply guard_redirects_without_transaction; reflexivity|].
  split; [apply guard_redirects_without_transaction; reflexivity|].
  split; apply upsell_dispatch_without_transaction; reflexivity.
Qed.

(** C9. For one and the same settlement amount reported by the gateway,
    4850, the card view stores the amount itself and the PayPal view stores
    a 1-tuple holding it. *)
Theorem settlement_amount_tuple_in_paypal_flow :
  stored_detail
    (world_of
       (card_form_valid (env:=Scenario.scripted) Scenario.card_single
          (Scenario.a_request POST) Scenario.card_form true
          (Scenario.world ∅
             [inl (ECustomer Scenario.a_customer);
              inl (ETransaction Scenario.a_transaction)] Scenario.jan_31)))
    "settlement_amount"
  = Some (PDecimal 4850) /\
  stored_detail
    (world_of
       (paypal_form_valid (env:=Scenario.scripted)
          (Scenario.a_request POST) (Scenario.paypal_form "single") true
          (Scenario.world ∅
             [inl (ETransaction Scenario.a_transaction)] Scenario.jan_31)))
    "settlement_amount"
  = Some (PTuple [PDecimal 4850]).
Proof. split; vm_compute; reflexivity. Qed.

(** C10. The payload the newsletter view hands to the queue is the cleaned
    data of the form as it is: the source URL and the language, set on a
    copy, are not in it. *)
Theorem newsletter_payload_lacks_source_url_and_lang :
  payloads_enqueued send_newsletter_subscription_to_basket
    (events_of
       (newsletter_form_valid (env:=Scenario.scripted)
          (Scenario.a_request POST) Scenario.newsletter_form true
          (Scenario.world (Scenario.session_after_single "card" true) []
             Scenario.jan_31)))
  = [PDict (cleaned_data Scenario.newsletter_form)] /\
  cleaned_data Scenario.newsletter_form !! "source_url" = None /\
  cleaned_data Scenario.newsletter_form !! "lang" = None.
Proof. repeat split; vm_compute; reflexivity. Qed.


(* the same run: the subscription is made against the new customer's token *)
Example paypal_upsell_subscribes_new_token :
  (fun params => params !! "payment_method_token") <$>
    subscriptions_requested
      (events_of
         (paypal_upsell_form_valid (env:=Scenario.scripted)
            (Scenario.a_request POST) Scenario.upsell_form true
            (Scenario.world (Scenario.session_after_single "paypal" false)
               [inl (ECustomer Scenario.a_customer);
                inl (ESubscription Scenario.a_subscription)] Scenario.jan_31)))
  = [Some (PStr "tok-9")].
Proof. vm_compute. reflexivity. Qed.

(* the example of the specification: a declined card number *)
Example card_number_invalid_example :
  card_form_valid (env:=Scenario.scripted) Scenario.card_single
    (Scenario.a_request POST) Scenario.card_form true
    (Scenario.world ∅
       [inl (ECustomer Scenario.a_customer);
        Scenario.declined [ErrorCodes.CreditCard.NumberIsInvalid]]
       Scenario.jan_31)
  = (Ok (card_error_page (env:=Scenario.scripted) Scenario.card_single
           (add_error Scenario.card_form
              "The credit card number you entered was invalid.") PNone),
     Scenario.world ∅ [] Scenario.jan_31,
     events_of
       (card_form_valid (env:=Scenario.scripted) Scenario.card_single
          (Scenario.a_request POST) Scenario.card_form true
          (Scenario.world ∅
             [inl (ECustomer Scenario.a_customer);
              Scenario.declined [ErrorCodes.CreditCard.NumberIsInvalid]]
             Scenario.jan_31))).
Proof. vm_compute. reflexivity. Qed.

Example first_billing_date_examples :
  relativedelta_radd 1 (mkdate 2020 1 31) = Ok (mkdate 2020 2 29) /\
  relativedelta_radd 1 (mkdate 2021 1 31) = Ok (mkdate 2021 2 28) /\
  relativedelta_radd 1 (mkdate 2020 12 31) = Ok (mkdate 2021 1 31) /\
  relativedelta_radd 1 (mkdate 2020 3 31) = Ok (mkdate 2020 4 30) /\
  relativedelta_radd 1 (mkdate 9999 12 1) = Raise ValueError.
Proof. repeat split; vm_compute; reflexivity. Qed.

(** ** The theorems at concrete inputs *)

Lemma address_errors_take_precedence_witness :
  (exists e, e ∈ Scenario.errors ["81715"; "81809"; "81707"] /\
             code e ∈ address_codes) /\
  card_process_braintree_error_result (env:=Scenario.scripted)
    Scenario.card_single
    (ErrorResult (Scenario.errors ["81715"; "81809"; "81707"]) "declined")
    Scenario.card_form (Scenario.world ∅ [] Scenario.jan_31)
  = (Ok (card_error_page (env:=Scenario.scripted) Scenario.card_single
           Scenario.card_form
           (PList [PStr "The post code you provided is not valid."])),
     Scenario.world ∅ [] Scenario.jan_31, []).
Proof.
  assert (exists e, e ∈ Scenario.errors ["81715"; "81809"; "81707"] /\
                    code e ∈ address_codes) as Haddr.
  { exists {| code := "81809"; error_message := EmptyString |}.
    split; apply list_elem_of_In; simpl; tauto. }
  split; [exact Haddr|].
  exact (address_errors_take_precedence (env:=Scenario.scripted)
           Scenario.card_single _ "declined" Scenario.card_form
           (Scenario.world ∅ [] Scenario.jan_31) Haddr).
Defined.

Lemma unmapped_errors_yield_generic_message_witness :
  (forall e, e ∈ Scenario.errors ["91701"] ->
             (code e ∉ address_codes) /\ (code e ∉ card_codes)) /\
  card_process_braintree_error_result (env:=Scenario.scripted)
    Scenario.card_single (ErrorResult (Scenario.errors ["91701"]) "declined")
    Scenario.card_form (Scenario.world ∅ [] Scenario.jan_31)
  = (Ok (card_error_page (env:=Scenario.scripted) Scenario.card_single
           (add_error Scenario.card_form
              (generic_message (env:=Scenario.scripted))) PNone),
     Scenario.world ∅ [] Scenario.jan_31, []).
Proof.
  assert (forall e, e ∈ Scenario.errors ["91701"] ->
                    (code e ∉ address_codes) /\ (code e ∉ card_codes)) as Hun.
  { intros e He. apply list_elem_of_In in He. simpl in He.
    destruct He as [<-|[]].
    split; intros Hc; apply list_elem_of_In in Hc; simpl in Hc;
      intuition discriminate. }
  split; [exact Hun|].
  exact (proj1 (unmapped_errors_yield_generic_message (env:=Scenario.scripted)
                  Scenario.card_single _ "declined" Scenario.card_form
                  (Scenario.world ∅ [] Scenario.jan_31) Hun)).
Defined.

Lemma card_errors_reported_in_order_witness :
  (forall e, e ∈ Scenario.errors ["81707"; "91701"; "81715"] ->
             code e ∉ address_codes) /\
  filter_user_card_errors (env:=Scenario.scripted)
    (Scenario.errors ["81707"; "91701"; "81715"])
  = omap (fun e => card_message (env:=Scenario.scripted) (code e))
      (Scenario.errors ["81707"; "91701"; "81715"]).
Proof.
  assert (forall e, e ∈ Scenario.errors ["81707"; "91701"; "81715"] ->
                    code e ∉ address_codes) as Hclean.
  { intros e He. apply list_elem_of_In in He. simpl in He.
    intros Hc. apply list_elem_of_In in Hc. simpl in Hc.
    destruct He as [<-|[<-|[<-|[]]]]; simpl in Hc; intuition discriminate. }
  split; [exact Hclean|].
  exact (proj1 (proj2 (card_errors_reported_in_order (env:=Scenario.scripted)
                  Scenario.card_single _ "declined" Scenario.card_form
                  (Scenario.world ∅ [] Scenario.jan_31) Hclean))).
Defined.

(* a card upsell after a PayPal payment *)
Lemma ineligible_upsell_redirects_witness :
  upsell_view_dispatch (env:=Scenario.scripted) CardUpsell
    (Scenario.a_request POST)
    (Scenario.world (Scenario.session_after_single "paypal" false)
       [inl (ESubscription Scenario.a_subscription)] Scenario.jan_31)
  = (Ok (HttpResponseRedirect "payments:newsletter_signup"),
     Scenario.world (Scenario.session_after_single "paypal" false)
       [inl (ESubscription Scenario.a_subscription)] Scenario.jan_31, []).
Proof.
  refine (proj1 (ineligible_upsell_redirects (env:=Scenario.scripted)
            CardUpsell (Scenario.a_request POST)
            (Scenario.details_after_single "paypal" false) (PStr "single")
            (Scenario.world (Scenario.session_after_single "paypal" false)
               [inl (ESubscription Scenario.a_subscription)] Scenario.jan_31)
            _ _ _)).
  - reflexivity.
  - reflexivity.
  - right. exists (PStr "paypal"). split; [reflexivity|discriminate].
Defined.







(* in that run the gateway is asked for one subscription, starting on
   29 February 2020, against the token of the session *)
Example upsell_on_jan_31 :
  (fun params => (params !! "first_billing_date",
                  params !! "payment_method_token")) <$>
    subscriptions_requested
      (events_of
         (upsell_view_form_valid (env:=Scenario.scripted) CardUpsell
            (Scenario.a_request POST) Scenario.upsell_form true
            (Scenario.world (Scenario.session_after_single "card" true)
               [inl (ESubscription Scenario.a_subscription)]
               Scenario.jan_31)))
  = [(Some (PDate (mkdate 2020 2 29)), Some (PStr "tok-1"))].
Proof. vm_compute. reflexivity. Qed.

(** * Further properties of the views *)

Section Runs.
Context {env : Env}.

(* the address check raises nothing but InvalidAddress *)
Lemma check_for_address_errors_raises
    (errs : list ValidationError) (e : exn) :
  check_for_address_errors errs = Raise e ->
  exists msgs, e = InvalidAddress msgs.
Proof.
  induction errs as [|error errs IH]; simpl; [discriminate|].
  destruct (address_errors !! code error); [|exact IH].
  intros [= <-]. eauto.
Qed.

Lemma card_message_shown (c m : string) :
  card_message c = Some m -> m ∈ card_user_messages.
Proof.
  unfold card_message, card_user_messages.
  repeat match goal with
  | |- context [String.eqb c ?k] => destruct (String.eqb c k)
  end; intros [= <-]; set_solver.
Qed.

Lemma filter_user_card_errors_shown (errs : list ValidationError) (m : string) :
  m ∈ filter_user_card_errors errs -> m ∈ card_user_messages.
Proof.
  rewrite filter_user_card_errors_omap. intros Hm.
  apply list_elem_of_omap in Hm as (e & _ & He).
  exact (card_message_shown _ _ He).
Qed.

(* a failed card payment is answered with the card page, which shows either
   the address message, the form as it was, or messages out of the fixed
   list, at least one, added to the form *)
Lemma card_error_result_page
    (self : CardPaymentView) (errs : list ValidationError) (message : string)
    (form : Form) (w : World) :
  exists form' shown,
    card_process_braintree_error_result self (ErrorResult errs message) form w
    = (Ok (card_error_page self form' shown), w, []) /\
    ((shown = PList [PStr address_message] /\ form' = form) \/
     (shown = PNone /\
      exists msgs, msgs <> [] /\
                   (forall m, m ∈ msgs -> m ∈ card_user_messages) /\
                   form' = add_errors form msgs)).
Proof.
  assert (generic_message ∈ card_user_messages) as Hgeneric
    by (unfold card_user_messages; set_solver).
  assert (exists msgs, [generic_message] = msgs /\ msgs <> [] /\
            forall m, m ∈ msgs -> m ∈ card_user_messages) as Hdefault.
  { eexists. split; [reflexivity|]. split; [discriminate|].
    intros m Hm. apply list_elem_of_singleton in Hm. subst m. exact Hgeneric. }
  destruct Hdefault as (dmsgs & Hd & Hne & Hin).
  unfold card_process_braintree_error_result, result_deep_errors,
    card_form_invalid, card_error_page, bind, ret, raise.
  destruct errs as [|e errs].
  { exists (add_error form card_default_error_message), PNone.
    split; [reflexivity|]. right. split; [reflexivity|].
    exists dmsgs. subst dmsgs. auto. }
  cbv beta iota.
  destruct (check_for_address_errors (e :: errs)) as [[]|ex] eqn:Hcheck.
  - destruct (filter_user_card_errors (e :: errs)) as [|m ms] eqn:Hfilter.
    + exists (add_error form card_default_error_message), PNone.
      split; [reflexivity|]. right. split; [reflexivity|].
      exists dmsgs. subst dmsgs. auto.
    + exists (add_errors form (m :: ms)), PNone.
      split; [reflexivity|]. right. split; [reflexivity|].
      exists (m :: ms). split; [discriminate|]. split; [|reflexivity].
      intros m' Hm'. apply (filter_user_card_errors_shown (e :: errs)).
      rewrite Hfilter. exact Hm'.
  - destruct (check_for_address_errors_raises _ _ Hcheck) as [msgs ->].
    assert (msgs = [address_message]) as ->.
    { revert Hcheck. generalize (e :: errs). intros l.
      induction l as [|e' l IH]; simpl; [discriminate|].
      rewrite address_errors_lookup. case_bool_decide; [|exact IH].
      intros [= <-]. reflexivity. }
    exists form, (PList [PStr address_message]).
    split; [reflexivity|]. left. auto.
Qed.

Ltac unfold_run :=
  unfold form_valid, upsell_view_form_valid, card_form_valid,
    process_single_transaction, process_monthly_transaction,
    paypal_form_valid, card_upsell_form_valid, paypal_upsell_form_valid,
    card_success, success, card_get_transaction_details_for_session,
    paypal_get_transaction_details_for_session,
    card_upsell_get_transaction_details_for_session,
    paypal_upsell_get_transaction_details_for_session,
    paypal_process_braintree_error_result,
    upsell_process_braintree_error_result, upsell_form_invalid,
    get_merchant_account_id, get_plan_id, table_getitem,
    gateway_customer_create, gateway_transaction_sale,
    gateway_subscription_create, gateway_call,
    result_customer, result_transaction, result_subscription,
    list_getitem0, py_getitem, dict_getitem, session_getitem, session_get,
    session_setitem, queue_enqueue, logger_error, now_date, lift, emit,
    bind, ret, raise in *.

(* one step of a run: the classifier and the creation of the customer by
   their lemmas, every other test by cases, innermost first *)
Ltac exec_step :=
  match goal with
  | |- context [card_process_braintree_error_result ?s (ErrorResult ?e ?m) ?f ?w] =>
      let form' := fresh "form'" in
      let shown := fresh "shown" in
      destruct (card_error_result_page s e m f w) as (form' & shown & -> & ?);
      simpl
  | |- context [card_create_customer ?f ?w] =>
      destruct (card_create_customer_cases f w)
        as [(? & ->)|[(? & ? & ? & ? & ->)|(? & ? & ? & ? & ? & ->)]];
      simpl
  | |- context [dict_literal ?kvs !! ?k] =>
      rewrite (lookup_dict_literal kvs k); simpl
  | |- context [match ?x with _ => _ end] =>
      lazymatch x with
      | context [match _ with _ => _ end] => fail
      | _ => destruct x eqn:?; simpl
      end
  end.

(* run [t], the property of the run kept folded meanwhile *)
Ltac exec_on t :=
  pattern t;
  match goal with
  | |- ?P _ =>
      let Q := fresh "Q" in
      set (Q := P); unfold_run; simpl; repeat exec_step;
      subst Q; cbv beta; unfold events_of, world_of, outcome_of; simpl
  end.

Ltac exec_form_valid :=
  match goal with
  | |- context [form_valid ?a ?r ?f ?s ?w] => exec_on (form_valid a r f s w)
  end.

Ltac use_tests :=
  repeat match goal with
  | H : ?m !! ?k = _ |- context [?m !! ?k] => rewrite H
  | H : py_eq_str ?v ?c = _ |- context [py_eq_str ?v ?c] => rewrite H
  end.

Lemma assoc_lookup_other kvs (k : string) (init : option pyval) :
  k ∉ kvs.*1 -> assoc_lookup kvs k init = init.
Proof.
  unfold assoc_lookup. revert init.
  induction kvs as [|[k' v] kvs IH]; intros init Hk; simpl; [reflexivity|].
  rewrite IH by (intros Hin; apply Hk; right; exact Hin).
  destruct (String.eqb_spec k' k) as [->|]; [|reflexivity].
  exfalso. apply Hk. left.
Qed.

(* look a key up in a record built by inserts over a dict display or
   update *)
Ltac record_lookup :=
  repeat first
    [ rewrite lookup_dict_literal
    | rewrite lookup_dict_update
    | rewrite lookup_insert_eq
    | rewrite lookup_insert_ne by discriminate ];
  try reflexivity.

(* the same for a key that is none of the keys in [keys] *)
Ltac other_key Hk keys :=
  repeat first
    [ rewrite lookup_dict_literal
    | rewrite lookup_dict_update
    | rewrite lookup_insert_ne
        by (intros <-; apply Hk; unfold keys; apply list_elem_of_In; simpl; tauto)
    | rewrite assoc_lookup_other
        by (intros Hin; apply Hk; unfold keys;
            apply list_elem_of_In; apply list_elem_of_In in Hin;
            simpl in *; tauto) ];
  try reflexivity.

(** ** What a payment attempt does *)

(** X1. A payment attempt makes at most two gateway calls, and in one of
    four shapes only: none; the creation of a customer alone; a customer
    that was created, then one charge or subscription; one charge or
    subscription alone.  So nothing is asked of the gateway after a call
    failed, and no attempt charges or subscribes twice. *)
Theorem gateway_calls_well_sequenced
    (a : PaymentAttempt) (req : Request) (form : Form)
    (send_data_to_basket : bool) (w : World) :
  well_sequenced
    (gateway_calls (events_of (form_valid a req form send_data_to_basket w)))
  = true.
Proof.
  destruct a; exec_form_valid; reflexivity.
Qed.

(** X2. A charge is made only by an attempt of single frequency and a
    subscription only by an attempt of another frequency; the card upsell
    never creates a customer, and the PayPal view creates one only for a
    frequency other than single. *)
Theorem gateway_calls_follow_frequency
    (a : PaymentAttempt) (req : Request) (form : Form)
    (send_data_to_basket : bool) (w : World) :
  let evs := events_of (form_valid a req form send_data_to_basket w) in
  (op_called transaction_sale evs = true -> attempt_is_single a form = true) /\
  (op_called subscription_create evs = true ->
   attempt_is_single a form = false) /\
  (op_called customer_create evs = true ->
   a <> CardUpsellAttempt /\
   (a = PaypalAttempt -> attempt_is_single a form = false)).
Proof.
  destruct a; exec_form_valid;
    unfold attempt_is_single, dict_get; use_tests; simpl; use_tests;
    (split; [intros Hop; try discriminate Hop; reflexivity|]);
    (split; [intros Hop; try discriminate Hop; reflexivity|]);
    intros Hop; try discriminate Hop;
    (split; [discriminate|]); intros Ha; try discriminate Ha; reflexivity.
Qed.

(** X3. An attempt logs as many errors as gateway calls of it failed, and
    never more than one: every failure is logged once, and nothing is
    logged when no call failed. *)
Theorem gateway_failures_logged_once
    (a : PaymentAttempt) (req : Request) (form : Form)
    (send_data_to_basket : bool) (w : World) :
  let evs := events_of (form_valid a req form send_data_to_basket w) in
  length (error_logs evs)
  = length (filter (fun call => negb call.2) (gateway_calls evs)) /\
  (length (error_logs evs) <= 1)%nat.
Proof.
  destruct a; exec_form_valid; split; solve [reflexivity | simpl; lia].
Qed.

(** X4. An attempt answers with a redirect exactly when its charge or
    subscription succeeded, and then to the upsell of its method after a
    single payment and to the newsletter signup otherwise; a failed attempt
    never sends the donor onwards. *)
Theorem redirect_iff_terminal_success
    (a : PaymentAttempt) (req : Request) (form : Form)
    (send_data_to_basket : bool) (w : World) :
  let x := form_valid a req form send_data_to_basket w in
  is_redirect (outcome_of x) = terminal_call_succeeded (events_of x) /\
  (terminal_call_succeeded (events_of x) = true ->
   outcome_of x = Ok (HttpResponseRedirect (reverse (next_route a form)))).
Proof.
  destruct a; exec_form_valid;
    (split; [reflexivity|]); intros Hok; try discriminate Hok;
    unfold card_get_success_url, paypal_get_success_url, upsell_success_url,
      next_route, attempt_is_single, dict_get; use_tests; simpl; use_tests;
    reflexivity.
Qed.

(** X5. A payment attempt never enqueues a newsletter signup, and it
    enqueues a transaction exactly when its charge or subscription
    succeeded and send_data_to_basket is set: then once, with the very
    record it stored in the session. *)
Theorem transaction_enqueued_is_the_record
    (a : PaymentAttempt) (req : Request) (form : Form)
    (send_data_to_basket : bool) (w : World) :
  let x := form_valid a req form send_data_to_basket w in
  payloads_enqueued send_newsletter_subscription_to_basket (events_of x) = [] /\
  payloads_enqueued send_transaction_to_basket (events_of x)
  = (if terminal_call_succeeded (events_of x) && send_data_to_basket
     then match session (world_of x) !! "completed_transaction_details" with
          | Some record => [record]
          | None => []
          end
     else []).
Proof.
  destruct a; exec_form_valid; (split; [reflexivity|]);
    try reflexivity;
    rewrite lookup_insert_ne by discriminate; rewrite lookup_insert_eq;
    reflexivity.
Qed.

(** X6. An attempt either writes nothing to the session, which then is
    as it was, or writes completed_transaction_details and then
    source_page_id, once each; every other key of the session is left
    alone. *)
Theorem session_written_in_two_slots_only
    (a : PaymentAttempt) (req : Request) (form : Form)
    (send_data_to_basket : bool) (w : World) :
  let x := form_valid a req form send_data_to_basket w in
  (session_writes (events_of x) = [] /\ session (world_of x) = session w \/
   exists record source,
     session_writes (events_of x)
     = [("completed_transaction_details", record);
        ("source_page_id", source)] /\
     session (world_of x)
     = <["source_page_id" := source]>
         (<["completed_transaction_details" := record]> (session w))).
Proof.
  destruct a; exec_form_valid;
    solve [left; split; reflexivity | right; do 2 eexists; split; reflexivity].
Qed.

(** X7. The record a successful card payment stores is the frozen form
    data with the method card, the frequency, currency and source page of
    the view and the locale of the request set over it; every field of the
    form that is not one of the nine keys set is kept as the form had it. *)
Theorem card_record_contents
    (self : CardPaymentView) (req : Request) (form : Form)
    (send_data_to_basket : bool) (w : World) :
  terminal_call_succeeded
    (events_of (form_valid (CardAttempt self) req form send_data_to_basket w))
  = true ->
  exists d,
    session (world_of (form_valid (CardAttempt self) req form
                         send_data_to_basket w))
      !! "completed_transaction_details"
    = Some (PDict (freeze_transaction_details_for_session d)) /\
    session (world_of (form_valid (CardAttempt self) req form
                         send_data_to_basket w)) !! "source_page_id"
    = Some (source_page_id self) /\
    d !! "payment_method" = Some (PStr constants.METHOD_CARD) /\
    d !! "payment_frequency" = Some (payment_frequency self) /\
    d !! "currency" = Some (currency self) /\
    d !! "source_page_id" = Some (source_page_id self) /\
    d !! "locale" = Some (PStr (LANGUAGE_CODE req)) /\
    (forall k, k ∉ card_record_keys -> d !! k = cleaned_data form !! k).
Proof.
  exec_form_valid; intros Hok; try discriminate Hok;
    eexists; (split; [record_lookup|]); (split; [record_lookup|]);
    (split; [record_lookup|]); (split; [record_lookup|]);
    (split; [record_lookup|]); (split; [record_lookup|]);
    (split; [record_lookup|]); intros k Hk; other_key Hk card_record_keys.
Qed.


(** X9. The record a successful upsell stores has frequency monthly and
    the method of the view, the currency of the earlier record (card) or
    of the form (PayPal) and the source page the session held; beyond the
    six keys set it holds the fields of the upsell form, nothing of the
    record it replaces. *)
Theorem upsell_record_contents
    (v : UpsellView) (req : Request) (form : Form)
    (send_data_to_basket : bool) (w : World) :
  terminal_call_succeeded
    (events_of (upsell_view_form_valid v req form send_data_to_basket w))
  = true ->
  exists d,
    session (world_of (upsell_view_form_valid v req form
                         send_data_to_basket w))
      !! "completed_transaction_details"
    = Some (PDict (freeze_transaction_details_for_session d)) /\
    session (world_of (upsell_view_form_valid v req form
                         send_data_to_basket w)) !! "source_page_id"
    = Some (dict_get (session w) "source_page_id") /\
    d !! "payment_frequency" = Some (PStr constants.FREQUENCY_MONTHLY) /\
    d !! "payment_method" = Some (PStr (expected_method v)) /\
    d !! "currency"
    = match v with
      | CardUpsell => stored_detail w "currency"
      | PaypalUpsell => cleaned_data form !! "currency"
      end /\
    d !! "source_page_id" = Some (dict_get (session w) "source_page_id") /\
    d !! "locale" = Some (PStr (LANGUAGE_CODE req)) /\
    (forall k, k ∉ upsell_record_keys -> d !! k = cleaned_data form !! k).
Proof.
  destruct v;
    match goal with
    | |- context [upsell_view_form_valid ?v ?r ?f ?s ?w] =>
        exec_on (upsell_view_form_valid v r f s w)
    end;
    intros Hok; try discriminate Hok; unfold stored_detail; use_tests;
    eexists; (split; [record_lookup|]); (split; [record_lookup|]);
    (split; [record_lookup|]); (split; [record_lookup|]);
    (split; [record_lookup|]); (split; [record_lookup|]);
    (split; [record_lookup|]); intros k Hk; other_key Hk upsell_record_keys.
Qed.

(** X10. Whenever a gateway call of an upsell fails, whatever the error
    codes, the answer is the upsell page with the form carrying one more
    message, "Sorry there was an error processing your payment. Please try
    again later." *)
Theorem upsell_failure_shows_one_generic_message
    (v : UpsellView) (req : Request) (form : Form)
    (send_data_to_basket : bool) (w : World) :
  gateway_failed
    (events_of (upsell_view_form_valid v req form send_data_to_basket w))
  = true ->
  outcome_of (upsell_view_form_valid v req form send_data_to_basket w)
  = Ok (TemplateResponse (upsell_template v)
          (Some (add_error form upsell_default_error_message))
          (upsell_context v)).
Proof.
  destruct v;
    match goal with
    | |- context [upsell_view_form_valid ?v ?r ?f ?s ?w] =>
        exec_on (upsell_view_form_valid v r f s w)
    end;
    intros Hfail; try discriminate Hfail; reflexivity.
Qed.

(** X11. Whenever a gateway call of the PayPal view fails, the answer is
    the PayPal page with a form of its own, made from the request being
    processed: on a POST or PUT it is bound to the submitted data, which
    the page therefore holds, and otherwise it is unbound; the view adds
    no message to it. *)
Theorem paypal_failure_rebinds_the_form
    (req : Request) (form : Form) (send_data_to_basket : bool) (w : World) :
  gateway_failed
    (events_of (form_valid PaypalAttempt req form send_data_to_basket w))
  = true ->
  outcome_of (form_valid PaypalAttempt req form send_data_to_basket w)
  = Ok (TemplateResponse "payment/paypal.html"
          (Some (FormView_get_form req BraintreePaypalPaymentForm ∅)) ∅) /\
  non_field_errors (FormView_get_form req BraintreePaypalPaymentForm ∅) = [] /\
  (is_submission (method req) = true ->
   forall cleaned,
     full_clean BraintreePaypalPaymentForm (POST_data req) = Some cleaned ->
     cleaned_data (FormView_get_form req BraintreePaypalPaymentForm ∅)
     = cleaned) /\
  (is_submission (method req) = false ->
   FormView_get_form req BraintreePaypalPaymentForm ∅ = unbound_form ∅).
Proof.
  intros Hfail. split.
  - revert Hfail.
    exec_form_valid; intros Hfail; try discriminate Hfail; reflexivity.
  - unfold FormView_get_form, is_submission.
    destruct (method req);
      destruct (full_clean BraintreePaypalPaymentForm (POST_data req));
      simpl;
      (split; [reflexivity|]);
      (split; [intros Hm; try discriminate Hm; intros cleaned Hc; congruence|]);
      intros Hm; try discriminate Hm; reflexivity.
Qed.

(** X12. Whenever a gateway call of the card view fails, the answer is
    the card page showing either the address message, the form as it was,
    or at least one message added to the form, each out of the five fixed
    messages of the view; nothing the gateway sent is shown. *)
Theorem card_failure_always_shows_a_message
    (self : CardPaymentView) (req : Request) (form : Form)
    (send_data_to_basket : bool) (w : World) :
  gateway_failed
    (events_of (form_valid (CardAttempt self) req form send_data_to_basket w))
  = true ->
  exists form' shown,
    outcome_of (form_valid (CardAttempt self) req form send_data_to_basket w)
    = Ok (card_error_page self form' shown) /\
    ((shown = PList [PStr address_message] /\ form' = form) \/
     (shown = PNone /\
      exists msgs, msgs <> [] /\
                   (forall m, m ∈ msgs -> m ∈ card_user_messages) /\
                   form' = add_errors form msgs)).
Proof.
  exec_form_valid; intros Hfail; try discriminate Hfail; eauto.
Qed.

(** ** From dispatch to form_valid *)

Lemma py_eq_str_ne (v : pyval) (c : string) :
  py_eq_str v c = false -> v <> PStr c.
Proof.
  intros Hf ->. simpl in Hf. rewrite String.eqb_refl in Hf. discriminate Hf.
Qed.

(* the eligibility check of the upsell views, on a record that fails it *)
Lemma upsell_dispatch_ineligible
    (expected : string) (handlers : pyval -> M HttpResponse)
    (details : gmap string pyval) (frequency : pyval) (w : World) :
  session w !! "completed_transaction_details" = Some (PDict details) ->
  details !! "payment_frequency" = Some frequency ->
  (frequency <> PStr constants.FREQUENCY_SINGLE \/
   exists m, details !! "payment_method" = Some m /\ m <> PStr expected) ->
  upsell_dispatch expected handlers w
  = (Ok (HttpResponseRedirect upsell_success_url), w, []).
Proof.
  intros Hsession Hfrequency Hineligible.
  unfold upsell_dispatch, session_getitem, py_getitem, dict_getitem, bind, ret.
  rewrite Hsession. simpl. rewrite Hfrequency. simpl.
  destruct (py_eq_str frequency constants.FREQUENCY_SINGLE) eqn:Hsingle;
    [|reflexivity].
  destruct Hineligible as [Hne|(m & Hm & Hne)].
  - apply py_eq_str_true in Hsingle. contradiction.
  - rewrite Hm. simpl. rewrite (py_eq_str_false _ _ Hne). reflexivity.
Qed.

(* the upsell dispatch either ends without any effect or hands over to the
   handlers, on a record of a single payment by the expected method for
   which an upgrade is suggested *)
Lemma upsell_dispatch_cases
    (expected : string) (handlers : pyval -> M HttpResponse) (w : World) :
  (exists o, upsell_dispatch expected handlers w = (o, w, []) /\
             forall r, o = Ok r -> exists url, r = HttpResponseRedirect url) \/
  (exists details currency amount,
     session w !! "completed_transaction_details" = Some (PDict details) /\
     details !! "payment_frequency" = Some (PStr constants.FREQUENCY_SINGLE) /\
     details !! "payment_method" = Some (PStr expected) /\
     details !! "currency" = Some currency /\
     details !! "amount" = Some amount /\
     get_suggested_monthly_upgrade currency amount <> PNone /\
     upsell_dispatch expected handlers w
     = handlers (get_suggested_monthly_upgrade currency amount) w).
Proof.
  unfold upsell_dispatch, TransactionRequiredMixin_dispatch, session_getitem,
    session_get, dict_get, py_getitem, dict_getitem, bind, ret, raise.
  destruct (session w !! "completed_transaction_details") as [record|] eqn:Hs;
    simpl; [|left; eexists; split; [reflexivity|discriminate]].
  destruct record as [| | | | | | | |details]; simpl;
    try (left; eexists; split; [reflexivity|discriminate]).
  destruct (details !! "payment_frequency") as [frequency|] eqn:Hf; simpl;
    [|left; eexists; split; [reflexivity|discriminate]].
  destruct (py_eq_str frequency constants.FREQUENCY_SINGLE) eqn:Hsingle; simpl;
    [|left; eexists; split; [reflexivity|intros r [= <-]; eauto]].
  apply py_eq_str_true in Hsingle. subst frequency.
  destruct (details !! "payment_method") as [m|] eqn:Hm; simpl;
    [|left; eexists; split; [reflexivity|discriminate]].
  destruct (py_eq_str m expected) eqn:Hexpected; simpl;
    [|left; eexists; split; [reflexivity|intros r [= <-]; eauto]].
  apply py_eq_str_true in Hexpected. subst m.
  destruct (details !! "currency") as [currency|] eqn:Hc; simpl;
    [|left; eexists; split; [reflexivity|discriminate]].
  destruct (details !! "amount") as [amount|] eqn:Ha; simpl;
    [|left; eexists; split; [reflexivity|discriminate]].
  assert (bool_decide (details = ∅) = false) as Hnonempty.
  { apply bool_decide_eq_false. intros ->.
    rewrite lookup_empty in Hf. discriminate Hf. }
  destruct (get_suggested_monthly_upgrade currency amount) eqn:Hsuggest;
    simpl; rewrite ?Hs; simpl; rewrite ?Hnonempty; simpl;
    first
      [ left; eexists; split; [reflexivity|intros r [= <-]; eauto]
      | right; exists details, currency, amount; rewrite Hsuggest;
        repeat (split; [first [assumption|reflexivity|discriminate]|]);
        destruct (handlers _ w) as [[? ?] ?]; reflexivity ].
Qed.


Lemma bind_ret_l {A B} (a : A) (k : A -> M B) (w : World) :
  bind (ret a) k w = k a w.
Proof. unfold bind, ret. destruct (k a w) as [[? ?] ?]. reflexivity. Qed.

Lemma bind_raise_l {A B} (e : exn) (k : A -> M B) (w : World) :
  bind (raise e) k w = (Raise e, w, []).
Proof. reflexivity. Qed.

(* a run without events from an unchanged world keeps the ledger *)
Lemma ledger_kept_quiet (o : outcome HttpResponse) (w : World) :
  ledger_kept w (o, w, []).
Proof.
  unfold ledger_kept, events_of, world_of; simpl.
  repeat split; intros; try discriminate; reflexivity.
Qed.

Lemma form_valid_keeps_ledger
    (a : PaymentAttempt) (req : Request) (form : Form)
    (send_data_to_basket : bool) (w : World) :
  ledger_kept w (form_valid a req form send_data_to_basket w).
Proof.
  destruct a; exec_form_valid; unfold ledger_kept, events_of, world_of; simpl;
    (split; [reflexivity|]);
    (split; [intros Hs; try discriminate Hs; eexists;
             rewrite lookup_insert_ne by discriminate; apply lookup_insert_eq|]);
    (split; [intros Hs; try discriminate Hs; auto|]);
    intros Hf; try discriminate Hf; reflexivity.
Qed.

Section Dispatch.
Variable FREQUENCIES : list string.
Variable StartCardPaymentForm_clean :
  gmap string string -> option (gmap string pyval).

Ltac quiet := left; eexists; reflexivity.

(* the guard runs no event and hands over on a truthy record *)
Lemma guard_cases (next : M HttpResponse) (w : World) :
  TransactionRequiredMixin_dispatch next w
  = if truthy (dict_get (session w) "completed_transaction_details")
    then next w
    else (Ok (HttpResponseRedirect "/"), w, []).
Proof.
  unfold TransactionRequiredMixin_dispatch, session_get.
  unfold bind at 1.
  destruct (truthy _); simpl; [|reflexivity].
  destruct (next w) as [[? ?] ?]. reflexivity.
Qed.

Lemma dispatch_cases
    (v : AnyView) (req : Request) (m : M HttpResponse) (w : World) :
  any_dispatch FREQUENCIES StartCardPaymentForm_clean v req = Found m ->
  dispatch_outcome FREQUENCIES StartCardPaymentForm_clean v req w (m w).
Proof.
  intros Hfound. unfold dispatch_outcome.
  destruct v as [frequency GET_data| |[ | | | ]]; simpl in Hfound.
  - unfold CardPaymentView_dispatch in Hfound.
    destruct (bool_decide (frequency ∈ FREQUENCIES)) eqn:Hfrequency;
      [|discriminate Hfound].
    apply bool_decide_eq_true in Hfrequency.
    injection Hfound as <-.
    destruct (StartCardPaymentForm_clean GET_data) as [cleaned|] eqn:Hstart;
      [|quiet].
    unfold dict_getitem.
    destruct (cleaned !! "amount") eqn:Ha; [rewrite bind_ret_l|quiet].
    destruct (cleaned !! "currency") eqn:Hc; [rewrite bind_ret_l|quiet].
    destruct (cleaned !! "source_page_id") eqn:Hp; [rewrite bind_ret_l|quiet].
    unfold FormView_dispatch, card_post, FormView_post.
    destruct (method req) eqn:Hmethod; try quiet;
      (destruct (full_clean _ _) as [data|] eqn:Hclean; [|quiet]);
      right; left;
      eexists (CardAttempt _), _;
      (split; [|reflexivity]);
      unfold submitted; rewrite Hmethod; simpl;
      (split; [reflexivity|]); (split; [reflexivity|]);
      (split; [eauto|]); (split; [assumption|]); (split; [reflexivity|]);
      eauto.
  - injection Hfound as <-.
    unfold PaypalPaymentView_dispatch, FormView_dispatch, paypal_post,
      FormView_post.
    destruct (method req) eqn:Hmethod; try quiet;
      (destruct (full_clean _ _) as [data|] eqn:Hclean; [|quiet]);
      right; left; exists PaypalAttempt; eexists;
      (split; [|reflexivity]);
      unfold submitted; rewrite Hmethod; simpl; eauto 10.
  - injection Hfound as <-. unfold guarded_dispatch, CardUpsellView_dispatch.
    destruct (upsell_dispatch_cases constants.METHOD_CARD
                (fun suggested_upgrade =>
                   FormView_dispatch req (card_upsell_get suggested_upgrade)
                     (card_upsell_post req suggested_upgrade)) w)
      as [(o & -> & _)|(details & currency & amount & Hs & Hf & Hm & Hc & Ha & Hsug & ->)];
      [left; eauto|].
    unfold FormView_dispatch, card_upsell_post, FormView_post.
    destruct (method req) eqn:Hmethod; try quiet;
      (destruct (full_clean _ _) as [data|] eqn:Hclean; [|quiet]);
      right; left; exists CardUpsellAttempt; eexists;
      (split; [|reflexivity]);
      unfold submitted, eligible_for_upsell; rewrite Hmethod; simpl;
      (split; [reflexivity|]); (split; [reflexivity|]);
      (split; [eauto|]); eauto 10.
  - injection Hfound as <-. unfold guarded_dispatch, PaypalUpsellView_dispatch.
    destruct (upsell_dispatch_cases constants.METHOD_PAYPAL
                (fun suggested_upgrade =>
                   FormView_dispatch req (paypal_upsell_get suggested_upgrade)
                     (paypal_upsell_post req suggested_upgrade)) w)
      as [(o & -> & _)|(details & currency & amount & Hs & Hf & Hm & Hc & Ha & Hsug & ->)];
      [left; eauto|].
    assert (forall k : gmap string pyval -> M HttpResponse,
              bind (paypal_upsell_get_initial
                      (get_suggested_monthly_upgrade currency amount)) k w
              = k (dict_literal
                     [("currency", currency);
                      ("amount", get_suggested_monthly_upgrade currency amount)])
                  w) as Hinitial.
    { intros k.
      assert (paypal_upsell_get_initial
                (get_suggested_monthly_upgrade currency amount) w
              = (Ok (dict_literal
                       [("currency", currency);
                        ("amount",
                         get_suggested_monthly_upgrade currency amount)]),
                 w, [])) as Hrun.
      { unfold paypal_upsell_get_initial, session_getitem, py_getitem,
          dict_getitem, bind, ret.
        rewrite Hs. simpl. rewrite Hc. reflexivity. }
      unfold bind. rewrite Hrun. destruct (k _ w) as [[? ?] ?]. reflexivity. }
    unfold FormView_dispatch, paypal_upsell_get, paypal_upsell_post.
    destruct (method req) eqn:Hmethod; try quiet;
      rewrite Hinitial; try quiet; unfold FormView_post;
      (destruct (full_clean _ _) as [data|] eqn:Hclean; [|quiet]);
      right; left; exists PaypalUpsellAttempt; eexists;
      (split; [|reflexivity]);
      unfold submitted, eligible_for_upsell; rewrite Hmethod; simpl;
      (split; [reflexivity|]); (split; [reflexivity|]);
      (split; [eauto|]); eauto 10.
  - injection Hfound as <-. unfold guarded_dispatch, NewsletterSignupView_dispatch.
    rewrite guard_cases.
    destruct (truthy _) eqn:Hrecord; [|quiet].
    unfold FormView_dispatch, newsletter_get, newsletter_post, FormView_post.
    destruct (method req) eqn:Hmethod;
      try (destruct (bool_decide _); quiet); try quiet;
      (destruct (full_clean _ _) as [data|] eqn:Hclean; [|quiet]);
      right; right; (split; [reflexivity|]); (split; [reflexivity|]);
      (split; [reflexivity|]); exists data; split; reflexivity.
  - injection Hfound as <-. unfold guarded_dispatch, ThankYouView_dispatch.
    rewrite guard_cases. destruct (truthy _); [|quiet].
    unfold TemplateView_dispatch, thank_you_get, session_getitem, bind.
    destruct (method req); try quiet;
      destruct (session w !! "completed_transaction_details"); quiet.
Qed.

(** X14. A request reaches the gateway only as a submission (POST or PUT)
    whose form validated and which passed the checks of its view: a known
    frequency and a valid start form in the card view, a record of a single
    payment by the right method with a suggested upgrade in the upsell
    views; what it runs is then the form_valid of that view. *)
Theorem payment_only_on_checked_submission
    (v : AnyView) (req : Request) (m : M HttpResponse) (w : World) :
  any_dispatch FREQUENCIES StartCardPaymentForm_clean v req = Found m ->
  gateway_called (events_of (m w)) = true ->
  exists a form,
    submitted FREQUENCIES StartCardPaymentForm_clean v req w a form /\
    m w = form_valid a req form true w.
Proof.
  intros Hfound Hcalled.
  destruct (dispatch_cases v req m w Hfound)
    as [(o & Hrun)|[Hrun|(_ & _ & _ & cleaned & _ & Hrun)]];
    [|exact Hrun|]; rewrite Hrun in Hcalled; discriminate Hcalled.
Qed.

(** X15. A request that is no submission, or whose form does not
    validate, has no effect: no gateway call, no write to the session,
    nothing enqueued or logged, and the world stays as it was. *)
Theorem no_effect_without_valid_submission
    (v : AnyView) (req : Request) (m : M HttpResponse) (w : World) :
  any_dispatch FREQUENCIES StartCardPaymentForm_clean v req = Found m ->
  (is_submission (method req) = false \/
   forall cls, view_form_class v = Some cls ->
               full_clean cls (POST_data req) = None) ->
  exists o, m w = (o, w, []).
Proof.
  intros Hfound Hno.
  destruct (dispatch_cases v req m w Hfound)
    as [Hquiet|[(a & form & Hsub & _)|(-> & Hmethod & _ & cleaned & Hclean & _)]];
    [exact Hquiet| |].
  - destruct Hsub as (Hmethod & _ & (cls & Hcls & Hclean) & _).
    destruct Hno as [Hno|Hno]; [congruence|].
    rewrite (Hno cls Hcls) in Hclean. discriminate Hclean.
  - destruct Hno as [Hno|Hno]; [congruence|].
    rewrite (Hno NewsletterSignupForm eq_refl) in Hclean. discriminate Hclean.
Qed.

(** X16. Through the dispatch of every view and for every request the
    ledger is kept: completed_transaction_details is written exactly when
    a charge or subscription succeeded, and otherwise the session is
    unchanged and no transaction is enqueued. *)
Theorem dispatch_keeps_ledger
    (v : AnyView) (req : Request) (m : M HttpResponse) (w : World) :
  any_dispatch FREQUENCIES StartCardPaymentForm_clean v req = Found m ->
  ledger_kept w (m w).
Proof.
  intros Hfound.
  destruct (dispatch_cases v req m w Hfound)
    as [(o & ->)|[(a & form & _ & ->)|(_ & _ & _ & cleaned & _ & ->)]].
  - apply ledger_kept_quiet.
  - apply form_valid_keeps_ledger.
  - unfold ledger_kept, events_of, world_of; simpl.
    repeat split; intros; try discriminate; reflexivity.
Qed.

End Dispatch.

(** X17. The newsletter and the thank-you views answer every request,
    whatever its method, with a redirect to "/" and nothing else when the
    session holds no record or a falsy one (None, an empty dict). *)
Theorem guard_turns_away_without_record
    (v : GuardedView) (req : Request) (w : World) :
  v = GuardedNewsletter \/ v = GuardedThankYou ->
  truthy (dict_get (session w) "completed_transaction_details") = false ->
  guarded_dispatch v req w = (Ok (HttpResponseRedirect "/"), w, []).
Proof.
  intros [-> | ->] Hfalsy; simpl;
    unfold NewsletterSignupView_dispatch, ThankYouView_dispatch;
    rewrite guard_cases, Hfalsy; reflexivity.
Qed.

(** X18. With a record in the session the thank-you view answers GET and
    HEAD with its page showing exactly that record, OPTIONS with the
    allowed methods and every other method with "not allowed"; it changes
    nothing. *)
Theorem thank_you_shows_the_record
    (req : Request) (record : pyval) (w : World) :
  session w !! "completed_transaction_details" = Some record ->
  truthy record = true ->
  ThankYouView_dispatch req w
  = match method req with
    | GET | HEAD =>
        (Ok (TemplateResponse "payment/thank_you.html" None
               (dict_literal [("completed_transaction_details", record)])),
         w, [])
    | OPTIONS => (Ok HttpResponseOptions, w, [])
    | POST | PUT | OtherMethod => (Ok HttpResponseNotAllowed, w, [])
    end.
Proof.
  intros Hrecord Htruthy. unfold ThankYouView_dispatch.
  rewrite guard_cases. unfold dict_get. rewrite Hrecord. simpl.
  rewrite Htruthy.
  unfold TemplateView_dispatch, thank_you_get, session_getitem, bind, ret.
  destruct (method req); try reflexivity; rewrite Hrecord; reflexivity.
Qed.

(** X19. The newsletter view never changes the world, and it hands a
    signup to the queue, once, exactly when the session holds a record, the
    request is a submission and the form validates; the payload is then the
    cleaned data. *)
Theorem newsletter_signup_enqueued_once
    (req : Request) (w : World) :
  world_of (NewsletterSignupView_dispatch req w) = w /\
  events_of (NewsletterSignupView_dispatch req w)
  = if truthy (dict_get (session w) "completed_transaction_details")
       && is_submission (method req)
    then match full_clean NewsletterSignupForm (POST_data req) with
         | Some cleaned =>
             [EvEnqueue send_newsletter_subscription_to_basket (PDict cleaned)]
         | None => []
         end
    else [].
Proof.
  unfold NewsletterSignupView_dispatch. rewrite guard_cases.
  destruct (truthy _); [|split; reflexivity].
  unfold FormView_dispatch, newsletter_get, newsletter_post, FormView_post.
  destruct (method req); simpl;
    try (destruct (bool_decide _); split; reflexivity);
    try (split; reflexivity);
    destruct (full_clean _ _); split; reflexivity.
Qed.

(** X20. On a GET, with a record of a single payment by its method, an
    upsell view redirects to its success URL when no upgrade is suggested
    and otherwise shows its form with the suggested upgrade as initial
    amount (and, in the PayPal view, the currency of the record); either
    way without any effect. *)
Theorem upsell_offers_the_suggestion
    (v : UpsellView) (req : Request) (details : gmap string pyval)
    (currency amount : pyval) (w : World) :
  session w !! "completed_transaction_details" = Some (PDict details) ->
  details !! "payment_frequency" = Some (PStr constants.FREQUENCY_SINGLE) ->
  details !! "payment_method" = Some (PStr (expected_method v)) ->
  details !! "currency" = Some currency ->
  details !! "amount" = Some amount ->
  method req = GET ->
  upsell_view_dispatch v req w
  = match get_suggested_monthly_upgrade currency amount with
    | PNone => (Ok (HttpResponseRedirect upsell_success_url), w, [])
    | suggested =>
        (Ok (TemplateResponse (upsell_template v)
               (Some (unbound_form (upsell_initial v currency suggested)))
               (upsell_context v)),
         w, [])
    end.
Proof.
  intros Hs Hf Hm Hc Ha Hget.
  assert (bool_decide (details = ∅) = false) as Hnonempty.
  { apply bool_decide_eq_false. intros ->.
    rewrite lookup_empty in Hf. discriminate Hf. }
  assert (py_eq_str (PStr (expected_method v)) (expected_method v) = true)
    as Hexpected by (simpl; apply String.eqb_refl).
  destruct v; simpl in *;
    unfold CardUpsellView_dispatch, PaypalUpsellView_dispatch, upsell_dispatch,
      TransactionRequiredMixin_dispatch, FormView_dispatch, card_upsell_get,
      paypal_upsell_get, paypal_upsell_get_initial,
      session_getitem, session_get, dict_get, py_getitem,
      dict_getitem, bind, ret, raise;
    rewrite Hs; simpl; rewrite Hf; simpl; rewrite Hm; simpl;
    rewrite Hc; simpl; rewrite Ha; simpl;
    destruct (get_suggested_monthly_upgrade currency amount); simpl;
    rewrite ?Hs; simpl; rewrite ?Hnonempty, ?Hget; simpl;
    rewrite ?Hs; simpl; rewrite ?Hc; reflexivity.
Qed.

(** ** From one request to the next *)

(* the kind of the record a successful attempt leaves *)
Lemma record_kind
    (a : PaymentAttempt) (req : Request) (form : Form)
    (send_data_to_basket : bool) (w : World) :
  terminal_call_succeeded
    (events_of (form_valid a req form send_data_to_basket w)) = true ->
  exists d frequency,
    session (world_of (form_valid a req form send_data_to_basket w))
      !! "completed_transaction_details"
    = Some (PDict (freeze_transaction_details_for_session d)) /\
    d !! "payment_frequency" = Some frequency /\
    py_eq_str frequency constants.FREQUENCY_SINGLE = attempt_is_single a form /\
    d !! "payment_method" = Some (PStr (attempt_method a)).
Proof.
  destruct a; exec_form_valid; intros Hok; try discriminate Hok;
    unfold attempt_is_single, dict_get; use_tests; simpl; use_tests;
    do 2 eexists; (split; [record_lookup|]); (split; [record_lookup|]);
    (split; [|record_lookup]);
    solve [reflexivity | symmetry; assumption | assumption].
Qed.

(** X21. Provided freezing keeps payment_frequency and payment_method,
    after any successful attempt that was not a single payment, or not by
    the method of the upsell view asked, that view redirects to its success
    URL without any effect: a monthly donor is not upsold, an upsell is not
    repeated, and the card upsell does not follow a PayPal payment. *)
Theorem upsell_refused_after_other_payment
    (a : PaymentAttempt) (req : Request) (form : Form)
    (send_data_to_basket : bool) (w : World)
    (v : UpsellView) (req' : Request) :
  (forall d k, k = "payment_frequency" \/ k = "payment_method" ->
               freeze_transaction_details_for_session d !! k = d !! k) ->
  terminal_call_succeeded
    (events_of (form_valid a req form send_data_to_basket w)) = true ->
  attempt_is_single a form = false \/ attempt_method a <> expected_method v ->
  upsell_view_dispatch v req'
    (world_of (form_valid a req form send_data_to_basket w))
  = (Ok (HttpResponseRedirect upsell_success_url),
     world_of (form_valid a req form send_data_to_basket w), []).
Proof.
  intros Hfreeze Hok Hother.
  destruct (record_kind a req form send_data_to_basket w Hok)
    as (d & frequency & Hrecord & Hfrequency & Hsingle & Hmethod).
  assert (forall handlers,
            upsell_dispatch (expected_method v) handlers
              (world_of (form_valid a req form send_data_to_basket w))
            = (Ok (HttpResponseRedirect upsell_success_url),
               world_of (form_valid a req form send_data_to_basket w), []))
    as Hguard.
  { intros handlers.
    apply (upsell_dispatch_ineligible _ _
             (freeze_transaction_details_for_session d) frequency).
    - exact Hrecord.
    - rewrite Hfreeze by auto. exact Hfrequency.
    - destruct Hother as [Hnot_single|Hmethod_differs].
      + left. apply py_eq_str_ne. congruence.
      + right. exists (PStr (attempt_method a)).
        split; [rewrite Hfreeze by auto; exact Hmethod|congruence]. }
  destruct v; apply Hguard.
Qed.

(* the token a successful card payment records *)
Lemma card_token_recorded
    (self : CardPaymentView) (req : Request) (form : Form)
    (send_data_to_basket : bool) (w : World) :
  terminal_call_succeeded
    (events_of (form_valid (CardAttempt self) req form send_data_to_basket w))
  = true ->
  exists d,
    session (world_of (form_valid (CardAttempt self) req form
                         send_data_to_basket w))
      !! "completed_transaction_details"
    = Some (PDict (freeze_transaction_details_for_session d)) /\
    (forall params,
       params ∈ requested transaction_sale
                  (events_of (form_valid (CardAttempt self) req form
                                send_data_to_basket w)) ->
       exists payment_method_token,
         params !! "payment_method_token" = Some payment_method_token /\
         d !! "payment_method_token" = Some payment_method_token) /\
    (forall params,
       params ∈ requested subscription_create
                  (events_of (form_valid (CardAttempt self) req form
                                send_data_to_basket w)) ->
       d !! "payment_method_token" = Some PNone /\
       d !! "settlement_amount" = Some PNone).
Proof.
  exec_form_valid; intros Hok; try discriminate Hok;
    eexists; (split; [record_lookup|]);
    (split; intros params Hin;
       [ first [ apply elem_of_nil in Hin; contradiction
               | apply list_elem_of_singleton in Hin; subst params;
                 eexists; split; record_lookup ]
       | first [ apply elem_of_nil in Hin; contradiction
               | apply list_elem_of_singleton in Hin; subst params;
                 split; unfold dict_get; record_lookup ] ]).
Qed.


(* the card upsell subscribes against the token of the record *)
Lemma card_upsell_uses_stored_token
    (req : Request) (form : Form) (send_data_to_basket : bool) (w : World)
    (params : gmap string pyval) :
  params ∈ subscriptions_requested
             (events_of (card_upsell_form_valid req form
                           send_data_to_basket w)) ->
  exists details,
    session w !! "completed_transaction_details" = Some (PDict details) /\
    params !! "payment_method_token" = details !! "payment_method_token".
Proof.
  revert params.
  exec_on (card_upsell_form_valid req form send_data_to_basket w);
    intros params Hin; try (apply elem_of_nil in Hin; contradiction);
    apply list_elem_of_singleton in Hin; subst params;
    eexists; (split; [reflexivity|]); use_tests; record_lookup.
Qed.

(** X22. Provided freezing keeps payment_method_token, a card upsell that
    follows a successful single card payment asks for its subscription
    against the very token the charge was made against. *)
Theorem upsell_subscribes_against_charged_token
    (self : CardPaymentView) (req : Request) (form : Form)
    (send_data_to_basket : bool) (w : World)
    (req' : Request) (form' : Form) (send_data_to_basket' : bool)
    (charged subscribed : gmap string pyval) :
  (forall d, freeze_transaction_details_for_session d !! "payment_method_token"
             = d !! "payment_method_token") ->
  terminal_call_succeeded
    (events_of (form_valid (CardAttempt self) req form send_data_to_basket w))
  = true ->
  charged ∈ requested transaction_sale
              (events_of (form_valid (CardAttempt self) req form
                            send_data_to_basket w)) ->
  subscribed ∈ subscriptions_requested
                 (events_of
                    (card_upsell_form_valid req' form' send_data_to_basket'
                       (world_of (form_valid (CardAttempt self) req form
                                    send_data_to_basket w)))) ->
  is_Some (charged !! "payment_method_token") /\
  subscribed !! "payment_method_token" = charged !! "payment_method_token".
Proof.
  intros Hfreeze Hok Hcharged Hsubscribed.
  destruct (card_token_recorded self req form send_data_to_basket w Hok)
    as (d & Hrecord & Hsale & _).
  destruct (Hsale charged Hcharged) as (tok & Hcharged_token & Hrecorded).
  destruct (card_upsell_uses_stored_token _ _ _ _ _ Hsubscribed)
    as (details & Hdetails & Htoken).
  rewrite Hrecord in Hdetails. injection Hdetails as <-.
  rewrite Htoken, Hfreeze, Hrecorded, Hcharged_token. eauto.
Qed.

(** X23. The billing address built from the form data has exactly the
    street address, locality, postal code and country of the form and never
    a region, even when the form has one: the test for the region looks at
    the address just built, which has none. *)
Theorem billing_address_never_has_region
    (form_data info : gmap string pyval) (w w' : World) (evs : list event) :
  get_address_info form_data w = (Ok info, w', evs) ->
  w' = w /\ evs = [] /\
  info !! "region" = None /\
  info !! "street_address" = form_data !! "address_line_1" /\
  info !! "locality" = form_data !! "town" /\
  info !! "postal_code" = form_data !! "post_code" /\
  info !! "country_code_alpha2" = form_data !! "country".
Proof.
  unfold get_address_info, dict_getitem, dict_get, bind, ret, raise.
  destruct (form_data !! "address_line_1"); simpl; [|discriminate].
  destruct (form_data !! "town"); simpl; [|discriminate].
  destruct (form_data !! "post_code"); simpl; [|discriminate].
  destruct (form_data !! "country"); simpl; [|discriminate].
  rewrite lookup_dict_literal. simpl.
  intros [= <- <- <-]. repeat split; record_lookup.
Qed.

End Runs.

(** ** The further theorems at concrete inputs *)

Lemma card_record_contents_witness :
  exists d,
    session (world_of Cases.card_paid) !! "completed_transaction_details"
    = Some (PDict d) /\
    d !! "payment_method" = Some (PStr "card") /\
    d !! "payment_frequency" = Some (PStr "single") /\
    d !! "email" = Some (PStr "ada@example.org").
Proof.
  destruct (card_record_contents (env:=Scenario.scripted)
              Scenario.card_single (Scenario.a_request POST)
              Scenario.card_form true
              (Scenario.world ∅
                 [inl (ECustomer Scenario.a_customer);
                  inl (ETransaction Scenario.a_transaction);
                  inl (ESubscription Scenario.a_subscription)]
                 Scenario.jan_31) eq_refl)
    as (d & Hrecord & _ & Hmethod & Hfrequency & _ & _ & _ & Hform).
  exists d. repeat split; try assumption.
  rewrite Hform; [reflexivity|].
  intros Hin. apply list_elem_of_In in Hin. simpl in Hin.
  intuition discriminate.
Defined.


Lemma upsell_record_contents_witness :
  exists d,
    session (world_of Cases.card_upsell_paid) !! "completed_transaction_details"
    = Some (PDict d) /\
    d !! "payment_frequency" = Some (PStr "monthly") /\
    d !! "payment_method_token" = None.
Proof.
  destruct (upsell_record_contents (env:=Scenario.scripted) CardUpsell
              (Scenario.a_request POST) Scenario.upsell_form true
              (Scenario.world (Scenario.session_after_single "card" true)
                 [inl (ESubscription Scenario.a_subscription)]
                 Scenario.jan_31) eq_refl)
    as (d & Hrecord & _ & Hfrequency & _ & _ & _ & _ & Hform).
  exists d. repeat split; try assumption.
  rewrite Hform; [reflexivity|].
  intros Hin. apply list_elem_of_In in Hin. simpl in Hin.
  intuition discriminate.
Defined.

Lemma upsell_failure_shows_one_generic_message_witness :
  outcome_of Cases.card_upsell_declined
  = Ok (TemplateResponse "payment/card_upsell.html"
          (Some (add_error Scenario.upsell_form
                   ("Sorry there was an error processing your payment. " +:+
                    "Please try again later.")))
          ∅).
Proof.
  exact (upsell_failure_shows_one_generic_message (env:=Scenario.scripted)
           CardUpsell (Scenario.a_request POST) Scenario.upsell_form true
           (Scenario.world (Scenario.session_after_single "card" true)
              [Scenario.declined [ErrorCodes.Address.PostalCodeIsTooLong]]
              Scenario.jan_31) eq_refl).
Defined.

(* a submission whose charge is declined: the page holds what was sent *)
Lemma paypal_failure_rebinds_the_form_witness :
  outcome_of Cases.paypal_declined
  = Ok (TemplateResponse "payment/paypal.html"
          (Some (FormView_get_form (env:=Scenario.scripted)
                   Cases.paypal_submission BraintreePaypalPaymentForm ∅)) ∅) /\
  cleaned_data (FormView_get_form (env:=Scenario.scripted)
                  Cases.paypal_submission BraintreePaypalPaymentForm ∅)
  = PStr <$> POST_data Cases.paypal_submission.
Proof.
  destruct (paypal_failure_rebinds_the_form (env:=Scenario.scripted)
              Cases.paypal_submission (Scenario.paypal_form "single") true
              (Scenario.world ∅
                 [Scenario.declined [ErrorCodes.Address.PostalCodeIsTooLong]]
                 Scenario.jan_31) eq_refl)
    as (Hpage & _ & Hbound & _).
  split; [exact Hpage|].
  apply Hbound; reflexivity.
Defined.

Lemma card_failure_always_shows_a_message_witness :
  exists form' shown,
    outcome_of Cases.card_declined
    = Ok (card_error_page (env:=Scenario.scripted) Scenario.card_single
            form' shown) /\
    ((shown = PList [PStr (address_message (env:=Scenario.scripted))] /\
      form' = Scenario.card_form) \/
     (shown = PNone /\
      exists msgs, msgs <> [] /\
                   (forall m, m ∈ msgs ->
                              m ∈ card_user_messages (env:=Scenario.scripted)) /\
                   form' = add_errors Scenario.card_form msgs)).
Proof.
  exact (card_failure_always_shows_a_message (env:=Scenario.scripted)
           Scenario.card_single (Scenario.a_request POST) Scenario.card_form
           true
           (Scenario.world ∅
              [inl (ECustomer Scenario.a_customer);
               Scenario.declined [ErrorCodes.CreditCard.CvvIsInvalid]]
              Scenario.jan_31) eq_refl).
Defined.


Lemma payment_only_on_checked_submission_witness :
  exists a form,
    submitted (env:=Scenario.scripted) Cases.FREQUENCIES Cases.start_form
      PaypalPayment Cases.paypal_submission
      (Scenario.world ∅ [inl (ETransaction Scenario.a_transaction)]
         Scenario.jan_31) a form /\
    PaypalPaymentView_dispatch Cases.paypal_submission
      (Scenario.world ∅ [inl (ETransaction Scenario.a_transaction)]
         Scenario.jan_31)
    = form_valid a Cases.paypal_submission form true
        (Scenario.world ∅ [inl (ETransaction Scenario.a_transaction)]
           Scenario.jan_31).
Proof.
  refine (payment_only_on_checked_submission (env:=Scenario.scripted)
            Cases.FREQUENCIES Cases.start_form PaypalPayment
            Cases.paypal_submission
            (PaypalPaymentView_dispatch Cases.paypal_submission)
            (Scenario.world ∅ [inl (ETransaction Scenario.a_transaction)]
               Scenario.jan_31) eq_refl _).
  vm_compute. reflexivity.
Defined.

Lemma no_effect_without_valid_submission_witness :
  exists o,
    guarded_dispatch (env:=Scenario.scripted) GuardedCardUpsell
      (Scenario.a_request GET)
      (Scenario.world (Scenario.session_after_single "card" true)
         [inl (ESubscription Scenario.a_subscription)] Scenario.jan_31)
    = (o,
       Scenario.world (Scenario.session_after_single "card" true)
         [inl (ESubscription Scenario.a_subscription)] Scenario.jan_31, []).
Proof.
  refine (no_effect_without_valid_submission (env:=Scenario.scripted)
            Cases.FREQUENCIES Cases.start_form (Guarded GuardedCardUpsell)
            (Scenario.a_request GET) _ _ eq_refl _).
  left. reflexivity.
Defined.

Lemma dispatch_keeps_ledger_witness :
  ledger_kept
    (Scenario.world ∅ [inl (ETransaction Scenario.a_transaction)]
       Scenario.jan_31)
    (PaypalPaymentView_dispatch (env:=Scenario.scripted)
       Cases.paypal_submission
       (Scenario.world ∅ [inl (ETransaction Scenario.a_transaction)]
          Scenario.jan_31)).
Proof.
  exact (dispatch_keeps_ledger (env:=Scenario.scripted) Cases.FREQUENCIES
           Cases.start_form PaypalPayment Cases.paypal_submission
           (PaypalPaymentView_dispatch Cases.paypal_submission)
           (Scenario.world ∅ [inl (ETransaction Scenario.a_transaction)]
              Scenario.jan_31) eq_refl).
Defined.

(* a session that holds an empty record *)
Lemma guard_turns_away_without_record_witness :
  guarded_dispatch (env:=Scenario.scripted) GuardedThankYou
    (Scenario.a_request GET)
    (Scenario.world {[ "completed_transaction_details" := PDict ∅ ]} []
       Scenario.jan_31)
  = (Ok (HttpResponseRedirect "/"),
     Scenario.world {[ "completed_transaction_details" := PDict ∅ ]} []
       Scenario.jan_31, []).
Proof.
  refine (guard_turns_away_without_record (env:=Scenario.scripted)
            GuardedThankYou (Scenario.a_request GET) _ _ _).
  - right. reflexivity.
  - vm_compute. reflexivity.
Defined.

Lemma thank_you_shows_the_record_witness :
  ThankYouView_dispatch (env:=Scenario.scripted) (Scenario.a_request GET)
    (Scenario.world (Scenario.session_after_single "card" true) []
       Scenario.jan_31)
  = (Ok (TemplateResponse "payment/thank_you.html" None
           (dict_literal
              [("completed_transaction_details",
                PDict (Scenario.details_after_single "card" true))])),
     Scenario.world (Scenario.session_after_single "card" true) []
       Scenario.jan_31, []).
Proof.
  refine (thank_you_shows_the_record (env:=Scenario.scripted)
            (Scenario.a_request GET)
            (PDict (Scenario.details_after_single "card" true)) _ _ _).
  - reflexivity.
  - vm_compute. reflexivity.
Defined.

Lemma upsell_offers_the_suggestion_witness :
  upsell_view_dispatch (env:=Scenario.scripted) PaypalUpsell
    (Scenario.a_request GET)
    (Scenario.world (Scenario.session_after_single "paypal" false) []
       Scenario.jan_31)
  = (Ok (TemplateResponse "payment/paypal_upsell.html"
           (Some (unbound_form
                    (dict_literal
                       [("currency", PStr "usd"); ("amount", PDecimal 500)])))
           (upsell_context (env:=Scenario.scripted) PaypalUpsell)),
     Scenario.world (Scenario.session_after_single "paypal" false) []
       Scenario.jan_31, []).
Proof.
  refine (upsell_offers_the_suggestion (env:=Scenario.scripted) PaypalUpsell
            (Scenario.a_request GET)
            (Scenario.details_after_single "paypal" false)
            (PStr "usd") (PDecimal 5000) _ _ _ _ _ _ _); reflexivity.
Defined.

(* a second card upsell after one that succeeded *)
Lemma upsell_refused_after_other_payment_witness :
  upsell_view_dispatch (env:=Scenario.scripted) CardUpsell
    (Scenario.a_request POST) (world_of Cases.card_upsell_paid)
  = (Ok (HttpResponseRedirect "payments:newsletter_signup"),
     world_of Cases.card_upsell_paid, []).
Proof.
  refine (upsell_refused_after_other_payment (env:=Scenario.scripted)
            CardUpsellAttempt (Scenario.a_request POST) Scenario.upsell_form
            true
            (Scenario.world (Scenario.session_after_single "card" true)
               [inl (ESubscription Scenario.a_subscription)] Scenario.jan_31)
            CardUpsell (Scenario.a_request POST) _ eq_refl _).
  - intros d k _. reflexivity.
  - left. reflexivity.
Defined.

Lemma upsell_subscribes_against_charged_token_witness :
  is_Some (Cases.charged !! "payment_method_token") /\
  Cases.subscribed !! "payment_method_token"
  = Cases.charged !! "payment_method_token".
Proof.
  refine (upsell_subscribes_against_charged_token (env:=Scenario.scripted)
            Scenario.card_single (Scenario.a_request POST) Scenario.card_form
            true
            (Scenario.world ∅
               [inl (ECustomer Scenario.a_customer);
                inl (ETransaction Scenario.a_transaction);
                inl (ESubscription Scenario.a_subscription)] Scenario.jan_31)
            (Scenario.a_request POST) Scenario.upsell_form true
            Cases.charged Cases.subscribed _ eq_refl _ _).
  - intros d. reflexivity.
  - match goal with
    | |- _ ∈ ?l => assert (l = [Cases.charged]) as -> by reflexivity
    end.
    apply list_elem_of_here.
  - match goal with
    | |- _ ∈ ?l => assert (l = [Cases.subscribed]) as -> by reflexivity
    end.
    apply list_elem_of_here.
Defined.

Lemma billing_address_never_has_region_witness :
  Cases.address_data !! "region" = Some (PStr "Greater London") /\
  Cases.address_info !! "region" = None.
Proof.
  split; [unfold Cases.address_data; rewrite lookup_dict_literal; reflexivity|].
  refine (proj1 (proj2 (proj2
            (billing_address_never_has_region (env:=Scenario.scripted)
               Cases.address_data Cases.address_info
               Cases.empty_world Cases.empty_world [] _)))).
  unfold get_address_info, dict_getitem, dict_get, bind, ret,
    Cases.address_data.
  rewrite !lookup_dict_literal. simpl.
  rewrite lookup_dict_literal. reflexivity.
Defined.
